(** * MorphProxy: a rotating reverse proxy (Go)

    A shallow embedding of the rotation control plane (ProxyManager), the
    header-rule engine, the per-worker request pipeline of StartProxyServer
    and the public entry handler of main, each behind the mux it is
    registered on, with the properties the specification states about
    them.

    Conventions.
    - Go strings are byte strings: [string].  Byte slices are [list byte].
    - A Go [int] is a 64-bit two's complement integer: [Z] with the wrap
      written out ([GoInt.wrap]).
    - A nil-able pointer to a url.URL is an [option]; [None] is nil.
    - A Go panic is an explicit result ([None], or the [Panicked]
      constructor where the state reached before the panic matters).
    - Calls into the Go standard library and Redis whose result depends on
      the outside world (the store, the detector, the file system, the
      backend) are inputs of the handlers, gathered in a record per request.
    - net/url, regexp, compress/gzip and the path cleaning of net/http are
      library interfaces: records of operations, instantiated for
      evaluation by small concrete instances.
    - The routing of http.ServeMux is written out for patterns without a
      host and a method, as net/http documents it: an exact pattern, else
      the longest pattern ending in a slash that is a prefix of the path;
      a path that is not in cleaned form is answered by a redirect. *)

From Stdlib Require Import ZArith List String Ascii Lia.
From Stdlib.Strings Require Byte.
From stdpp Require Import base option list gmap strings.
From stdpp Require Import pretty.

Local Open Scope Z_scope.
Local Open Scope string_scope.

Abbreviation bytes := (list Byte.byte).

(** ** Go's [int], on a 64-bit platform *)
Module GoInt.

Definition min_int : Z := - 2 ^ 63.
Definition max_int : Z := 2 ^ 63 - 1.

(** Two's complement reduction to 64 bits. *)
Definition wrap (x : Z) : Z := (x + 2 ^ 63) mod 2 ^ 64 - 2 ^ 63.

(** [x++] on an int. *)
Definition incr (x : Z) : Z := wrap (x + 1).

Definition in_range (x : Z) : Prop := min_int <= x <= max_int.

End GoInt.

(** ** package strings *)
Module Strings.

(** strings.HasPrefix(s, p) *)
Definition HasPrefix (s p : string) : bool := String.prefix p s.

(** strings.Contains(s, sub) *)
Fixpoint Contains (s sub : string) : bool :=
  if String.prefix sub s then true
  else match s with
       | EmptyString => false
       | String _ s' => Contains s' sub
       end.

(** strings.Split(s, ":")[0]: the part of [s] before its first colon,
    all of [s] when it has none. *)
Fixpoint before_colon (s : string) : string :=
  match s with
  | EmptyString => EmptyString
  | String c s' => if Ascii.eqb c ":"%char then EmptyString else String c (before_colon s')
  end.

End Strings.

(** ** package net/url, as an interface *)
Record UrlLib : Type := {
  URL : Type;
  (** url.Parse: [None] when it returns a nil URL and an error *)
  url_Parse : string -> option URL;
  (** URL.String on a non-nil receiver *)
  url_String : URL -> string;
  url_Scheme : URL -> string;
  url_Host : URL -> string
}.

(** ** The proxy registry and its rotation (ProxyManager) *)
Module Registry.

(** golang.org/x/exp/rand.Shuffle(n, swap): Fisher-Yates, from the last
    index down to 1; at index [i] the generator yields [j] in [0, i].  The
    generator is the function [draw]: the value it gives at step [i] is
    reduced modulo [i + 1]. *)
Section Shuffle.
Context {A : Type}.

(** [l[i], l[j] = l[j], l[i]] *)
Definition swap (l : list A) (i j : nat) : list A :=
  match l !! i, l !! j with
  | Some x, Some y => <[i:=y]> (<[j:=x]> l)
  | _, _ => l
  end.

Fixpoint shuffle_from (draw : nat -> nat) (i : nat) (l : list A) : list A :=
  match i with
  | O => l
  | S i' => shuffle_from draw i' (swap l i (draw i mod (S i))%nat)
  end.

Definition Shuffle (draw : nat -> nat) (n : nat) (l : list A) : list A :=
  shuffle_from draw (n - 1) l.

End Shuffle.

Section Manager.
Variable U : UrlLib.

(** type ProxyManager struct, with the [domain] that NewProxyManager
    sets; the mutex and the ticker carry no data.  Every method takes the
    mutex, so a call is one step. *)
Record ProxyManager : Type := {
  proxies : list (option (URL U));
  currentProxy : option (URL U);
  domain : string
}.

(** NewProxyManager: an unparsable URL is logged and leaves a nil entry;
    [proxies[0]] panics on an empty slice. *)
Definition NewProxyManager (proxyURLs : list string) (dom : string)
  : option ProxyManager :=
  let ps := map (url_Parse U) proxyURLs in
  match ps !! 0%nat with
  | None => None
  | Some p => Some {| proxies := ps; currentProxy := p; domain := dom |}
  end.

(** The outcome of one call of switchProxy: it returns, having announced
    the new active URL (written under active_proxy and published on
    proxy_updates), or it panics, leaving the manager as it was then. *)
Inductive Switched : Type :=
| Returned (pm : ProxyManager) (active : string)
| Panicked (pm : ProxyManager).

Definition state_after (r : Switched) : ProxyManager :=
  match r with
  | Returned pm _ => pm
  | Panicked pm => pm
  end.

(** switchProxy: shuffle in place, take index 0 as the cursor, label the
    switch counter with [currentProxy.String()] (a nil dereference when the
    entry is nil), then UpdateActiveProxy. *)
Definition switchProxy (draw : nat -> nat) (pm : ProxyManager) : Switched :=
  let ps := Shuffle draw (length (proxies pm)) (proxies pm) in
  match ps !! 0%nat with
  | None => Panicked {| proxies := ps; currentProxy := currentProxy pm; domain := domain pm |}
  | Some None => Panicked {| proxies := ps; currentProxy := None; domain := domain pm |}
  | Some (Some u) =>
      Returned {| proxies := ps; currentProxy := Some u; domain := domain pm |}
               (url_String U u)
  end.

(** GetProxy *)
Definition GetProxy (pm : ProxyManager) : option (URL U) := currentProxy pm.

(** The states a registry goes through: built by NewProxyManager, then
    changed by switchProxy only, under any random generator. *)
Inductive reachable : ProxyManager -> Prop :=
| reach_new urls dom pm :
    NewProxyManager urls dom = Some pm -> reachable pm
| reach_switch draw pm :
    reachable pm -> reachable (state_after (switchProxy draw pm)).

(** The registry invariant of the data model. *)
Definition Inv (pm : ProxyManager) : Prop :=
  proxies pm <> [] /\ currentProxy pm ∈ proxies pm.

End Manager.

Arguments proxies {U} _.
Arguments currentProxy {U} _.
Arguments domain {U} _.
Arguments Returned {U} _ _.
Arguments Panicked {U} _.
Arguments state_after {U} _.
Arguments Inv {U} _.

End Registry.

(** ** net/http's Header (textproto.MIMEHeader) *)
Module HttpHeader.

(** A header maps a canonical key to the values of its occurrences, in
    order. *)
Abbreviation Header := (gmap string (list string)).

Definition is_lower (c : ascii) : bool :=
  let n := N_of_ascii c in ((97 <=? n) && (n <=? 122))%N.
Definition is_upper (c : ascii) : bool :=
  let n := N_of_ascii c in ((65 <=? n) && (n <=? 90))%N.
Definition is_digit (c : ascii) : bool :=
  let n := N_of_ascii c in ((48 <=? n) && (n <=? 57))%N.

(** The bytes of an RFC 7230 token. *)
Definition validHeaderFieldByte (c : ascii) : bool :=
  is_lower c || is_upper c || is_digit c ||
  existsb (Ascii.eqb c) (list_ascii_of_string "!#$%&'*+-.^_`|~").

Definition to_upper (c : ascii) : ascii := ascii_of_N (N_of_ascii c - 32).
Definition to_lower (c : ascii) : ascii := ascii_of_N (N_of_ascii c + 32).

Fixpoint canonical_from (upper : bool) (s : string) : string :=
  match s with
  | EmptyString => EmptyString
  | String c s' =>
      let c' := if upper && is_lower c then to_upper c
                else if negb upper && is_upper c then to_lower c
                else c in
      String c' (canonical_from (Ascii.eqb c' "-"%char) s')
  end.

(** textproto.CanonicalMIMEHeaderKey: a key that is not a token is
    returned unchanged. *)
Definition CanonicalMIMEHeaderKey (s : string) : string :=
  if forallb validHeaderFieldByte (list_ascii_of_string s)
  then canonical_from true s else s.

Definition Get (h : Header) (key : string) : string :=
  match h !! CanonicalMIMEHeaderKey key with
  | Some (v :: _) => v
  | _ => EmptyString
  end.

(** [h.Values(key)]: every occurrence. *)
Definition Values (h : Header) (key : string) : list string :=
  default [] (h !! CanonicalMIMEHeaderKey key).

Definition Set_ (h : Header) (key value : string) : Header :=
  <[CanonicalMIMEHeaderKey key := [value]]> h.

Definition Add (h : Header) (key value : string) : Header :=
  let k := CanonicalMIMEHeaderKey key in
  <[k := (default [] (h !! k) ++ [value])%list]> h.

Definition Del (h : Header) (key : string) : Header :=
  delete (CanonicalMIMEHeaderKey key) h.

(** httputil's copyHeader(dst, src): [dst.Add(k, v)] for every value [v]
    of every key [k] of [src].  The keys of [src] are canonical already (the
    header was built by net/http and by the functions above), so each key
    receives the values of [src] after its own. *)
Definition copyHeader (dst src : Header) : Header :=
  merge (fun d s =>
           match d, s with
           | Some a, Some b => Some (a ++ b)%list
           | Some a, None => Some a
           | None, Some [] => None
           | None, Some b => Some b
           | None, None => None
           end) dst src.

End HttpHeader.

(** ** package regexp, as an interface *)
Record RegexpLib : Type := {
  Regexp : Type;
  (** regexp.Compile: [None] on a syntax error, where MustCompile panics *)
  regexp_Compile : string -> option Regexp;
  (** (re).ReplaceAllString(src, repl) *)
  ReplaceAllString : Regexp -> string -> string -> string
}.

(** ** The header-rule engine *)
Module HeaderRules.
Import HttpHeader.

Record HeaderRule : Type := {
  Action : string;
  Header_ : string;
  Value : string;
  Regex : string;
  Replacement : string
}.

Section Engine.
Variable R : RegexpLib.

(** One iteration of the loop of applyHeaderRules; [None] is the panic of
    regexp.MustCompile. *)
Definition applyRule (h : Header) (rule : HeaderRule) : option Header :=
  if String.eqb (Action rule) "add-header" then
    Some (Add h (Header_ rule) (Value rule))
  else if String.eqb (Action rule) "set-header" then
    Some (Set_ h (Header_ rule) (Value rule))
  else if String.eqb (Action rule) "del-header" then
    Some (Del h (Header_ rule))
  else if String.eqb (Action rule) "replace-header" then
    if negb (String.eqb (Regex rule) EmptyString) then
      let value := Get h (Header_ rule) in
      if negb (String.eqb value EmptyString) then
        match regexp_Compile R (Regex rule) with
        | None => None
        | Some re =>
            let newValue := ReplaceAllString R re value (Replacement rule) in
            Some (Set_ h (Header_ rule) newValue)
        end
      else Some h
    else Some h
  else Some h.

(** A rule that cannot make MustCompile panic: it is no replace-header
    rule, or its regex is empty, or its regex compiles. *)
Definition compiles (rule : HeaderRule) : Prop :=
  Action rule = "replace-header" -> Regex rule <> EmptyString ->
  is_Some (regexp_Compile R (Regex rule)).

(** applyHeaderRules(resp), on the header of the response; the rules are
    the global [headerRules]. *)
Fixpoint applyHeaderRules (headerRules : list HeaderRule) (h : Header)
  : option Header :=
  match headerRules with
  | [] => Some h
  | rule :: rest =>
      match applyRule h rule with
      | None => None
      | Some h' => applyHeaderRules rest h'
      end
  end.

End Engine.

End HeaderRules.

(** ** package compress/gzip, as an interface *)
Record GzipLib : Type := {
  (** the bytes a gzip.Writer has emitted once closed, for the data
      written to it *)
  gzip : bytes -> bytes;
  (** what a gzip.Reader yields: [None] when the input is not a gzip
      stream *)
  gunzip : bytes -> option bytes
}.

(** What the properties below use of gzip: decoding inverts encoding, and
    a gzip stream starts with the magic number 1f 8b (RFC 1952). *)
Record GzipLaws (G : GzipLib) : Prop := {
  gunzip_gzip : forall b, gunzip G (gzip G b) = Some b;
  gzip_magic : forall b, exists t, gzip G b = Byte.x1f :: Byte.x8b :: t
}.

(** ** net/http requests and what a handler writes *)
Module Http.
Import HttpHeader.

(** The fields of *http.Request the handlers read. *)
Record Request : Type := {
  Method : string;
  Host : string;
  RequestURI : string;
  (** the server fills it with the peer's address, IP:port *)
  RemoteAddr : string;
  URL_Scheme : string;
  URL_Host : string;
  URL_Path : string;
  (** r.URL.RequestURI() *)
  URL_RequestURI : string;
  ReqHeader : Header
}.

(** What a handler has done to its ResponseWriter when it returns: the
    header map, the status code, and the data passed to Write. *)
Record Written : Type := {
  w_header : Header;
  w_status : Z;
  w_body : bytes
}.

(** An *http.Response as ModifyResponse sees it; the body is what reading
    it to the end yields. *)
Record Response : Type := {
  StatusCode : Z;
  RespHeader : Header;
  RespBody : bytes
}.

Definition acceptsGzip (r : Request) : bool :=
  Strings.Contains (Get (ReqHeader r) "Accept-Encoding") "gzip".

End Http.

(** ** net/http's ServeMux, for patterns without a host or a method *)
Module Mux.
Import Http.

(** net/http's cleanPath, as an interface: path.Clean on the path made
    rooted, a trailing slash kept. *)
Record PathLib : Type := {
  cleanPath : string -> string
}.

(** What ServeMux.ServeHTTP does with a request. *)
Inductive Route : Type :=
| BadRequest                    (* RequestURI "*": 400 *)
| Moved (path : string)         (* RedirectHandler to [path] and the query, 301 *)
| NotFound                      (* NotFoundHandler(): 404 *)
| Matched (pattern : string).   (* the handler registered for [pattern] *)

(** The last byte of [s] is a slash. *)
Fixpoint ends_in_slash (s : string) : bool :=
  match s with
  | EmptyString => false
  | String c s' =>
      match s' with
      | EmptyString => Ascii.eqb c "/"%char
      | String _ _ => ends_in_slash s'
      end
  end.

Section Mux.
Variable P : PathLib.
(** the patterns registered, in the order of registration *)
Variable patterns : list string.

(** [mux.m[path]]: a pattern equal to [path] *)
Definition registered (path : string) : bool :=
  existsb (String.eqb path) patterns.

(** [mux.es]: the patterns that end in a slash, tried from the longest to
    the shortest; the first that is a prefix of [path]. *)
Definition longer (best : option string) (pattern : string) : bool :=
  match best with
  | None => true
  | Some b => Nat.ltb (String.length b) (String.length pattern)
  end.

Definition match_es (path : string) : option string :=
  fold_left
    (fun best pattern =>
       if ends_in_slash pattern && String.prefix pattern path && longer best pattern
       then Some pattern else best)
    patterns None.

(** ServeMux.handler: match, then NotFoundHandler. *)
Definition handler (path : string) : Route :=
  if registered path then Matched path
  else match match_es path with
       | Some pattern => Matched pattern
       | None => NotFound
       end.

(** ServeMux.shouldRedirectRLocked: [path] is not registered and [path/]
    is. *)
Definition shouldRedirect (path : string) : bool :=
  if registered path then false
  else if String.eqb path EmptyString then false
  else registered (path +:+ "/") && negb (ends_in_slash path).

(** ServeMux.Handler: a CONNECT request is not canonicalized; for any other
    the path is cleaned, and a request whose path is not clean is answered
    by a redirect to the clean one. *)
Definition Handler (r : Request) : Route :=
  if String.eqb (Method r) "CONNECT" then
    if shouldRedirect (URL_Path r) then Moved (URL_Path r +:+ "/")
    else handler (URL_Path r)
  else
    let path := cleanPath P (URL_Path r) in
    if shouldRedirect path then Moved (path +:+ "/")
    else if negb (String.eqb path (URL_Path r)) then Moved path
    else handler (URL_Path r).

(** ServeMux.ServeHTTP *)
Definition ServeHTTP (r : Request) : Route :=
  if String.eqb (RequestURI r) "*" then BadRequest else Handler r.

End Mux.

End Mux.

(** ** A proxy worker: StartProxyServer *)
Module Worker.
Import HttpHeader Http HeaderRules.

(** A JSON value of the detector's answer, as far as the handler looks at
    it: a string, or anything else. *)
Inductive Any : Type :=
| AString (s : string)
| AOther.

(** [v == "MALICIOUS"] on an interface value; a missing key is nil. *)
Definition is_MALICIOUS (v : option Any) : bool :=
  match v with
  | Some (AString s) => String.eqb s "MALICIOUS"
  | _ => false
  end.

(** What the outside world answers during one request. *)
Record World : Type := {
  (** redisClient.Get(ctx, "active_proxy").Result(); [None] on any error *)
  store_active_proxy : option string;
  (** io.ReadAll(r.Body): the client's body, [None] on a read error *)
  read_body : option bytes;
  (** sendToDetectionService, given the uri and the body as a string *)
  detector : string -> string -> option (gmap string Any);
  (** os.ReadFile("403.html") *)
  file_403 : option bytes;
  (** the transport's round trip to the backend, given the forwarded
      body; [None] when the backend cannot be reached *)
  backend : bytes -> option Response
}.

(** The call by which the handler answers. *)
Inductive Reply : Type :=
| Error (msg : string) (code : Z)          (* http.Error(w, msg, code) *)
| Redirect (url : string) (code : Z)       (* http.Redirect(w, r, url, code) *)
| Page (contentType : string) (code : Z) (content : bytes)
    (* w.Header().Set("Content-Type", ..); w.WriteHeader(code); w.Write(content) *)
| Proxied (body : bytes).                  (* proxy.ServeHTTP(w, r), r.Body over [body] *)

(** The request was handed to the reverse proxy. *)
Definition forwarded (rp : Reply) : bool :=
  match rp with
  | Proxied _ => true
  | _ => false
  end.

Definition string_of_bytes (b : bytes) : string := string_of_list_byte b.

(** The handler registered on "/": the new [requestCounts], the status
    label recorded in the metrics, and the reply. *)
Definition handle (enableDetection : bool) (requestCounts : gmap string Z)
    (r : Request) (w : World) : gmap string Z * string * Reply :=
  let ip := RemoteAddr r in
  let n := GoInt.incr (default 0 (requestCounts !! ip)) in
  let counts := <[ip := n]> requestCounts in
  if (500 <? n)%Z then
    (counts, "429", Error "Too Many Requests" 429)
  else
    match store_active_proxy w with
    | None => (counts, "500", Error "Internal Server Error" 500)
    | Some activeProxy =>
        if negb (String.eqb ("https://" +:+ Host r) activeProxy) then
          (counts, "302", Redirect (activeProxy +:+ RequestURI r) 302)
        else
          match read_body w with
          | None => (counts, "500", Error "Failed to read request body" 500)
          | Some bodyBytes =>
              if enableDetection then
                match detector w (RequestURI r) (string_of_bytes bodyBytes) with
                | None =>
                    (counts, "500", Error "Failed to connect to detection service" 500)
                | Some detectionResponse =>
                    if is_MALICIOUS (detectionResponse !! "authorized") then
                      match file_403 w with
                      | None => (counts, "500", Error "Failed to load 403 page" 500)
                      | Some htmlContent =>
                          (counts, "403", Page "text/html" 403 htmlContent)
                      end
                    else (counts, "200", Proxied bodyBytes)
                end
              else (counts, "200", Proxied bodyBytes)
          end
    end.

(** [requestCounts[ip]] after [requestCounts[ip]++]: the value the handler
    stores for the client and tests against 500. *)
Definition new_count (requestCounts : gmap string Z) (r : Request) : Z :=
  GoInt.incr (default 0 (requestCounts !! RemoteAddr r)).

Definition counts_of (x : gmap string Z * string * Reply) : gmap string Z := x.1.1.
Definition status_of (x : gmap string Z * string * Reply) : string := x.1.2.
Definition reply_of (x : gmap string Z * string * Reply) : Reply := x.2.

(** The patterns StartProxyServer registers on its mux. *)
Definition patterns : list string := ["/health"; "/"].

(** The mux hands the request to the handler registered on "/". *)
Definition to_handler (P : Mux.PathLib) (r : Request) : bool :=
  match Mux.ServeHTTP P patterns r with
  | Mux.Matched pattern => String.eqb pattern "/"
  | _ => false
  end.

(** What the worker's server does with a request. *)
Inductive Answer : Type :=
| ByMux (rt : Mux.Route)       (* the mux answers itself: 400, 301 or 404 *)
| Health                       (* the handler on /health: 200, "Proxy is healthy" *)
| Handled (status : string) (reply : Reply).
    (* the handler on "/": its metrics label and its reply *)

(** The mux of the worker: the new [requestCounts] and the answer. *)
Definition mux (P : Mux.PathLib) (enableDetection : bool)
    (requestCounts : gmap string Z) (r : Request) (w : World)
  : gmap string Z * Answer :=
  match Mux.ServeHTTP P patterns r with
  | Mux.Matched pattern =>
      if String.eqb pattern "/" then
        let x := handle enableDetection requestCounts r w in
        (counts_of x, Handled (status_of x) (reply_of x))
      else (requestCounts, Health)
  | rt => (requestCounts, ByMux rt)
  end.

(** The worker over its lifetime: the requests that reach its server are
    served one at a time (the handler on "/" under the mutex), each with the
    world's answers at that time. *)
Fixpoint serve (P : Mux.PathLib) (enableDetection : bool)
    (requestCounts : gmap string Z) (rs : list (Request * World))
  : gmap string Z * list Answer :=
  match rs with
  | [] => (requestCounts, [])
  | (r, w) :: rest =>
      let x := mux P enableDetection requestCounts r w in
      let y := serve P enableDetection x.1 rest in
      (y.1, x.2 :: y.2)
  end.

(** How many of the requests [rs] come from the address [ip] and are handed
    to the handler on "/". *)
Fixpoint seen (P : Mux.PathLib) (ip : string) (rs : list (Request * World)) : nat :=
  match rs with
  | [] => O
  | (r, _) :: rest =>
      ((if String.eqb (RemoteAddr r) ip && to_handler P r then 1 else 0)
       + seen P ip rest)%nat
  end.

(** [requestCounts[ip]] as Go reads it: 0 for a missing key. *)
Definition count (requestCounts : gmap string Z) (ip : string) : Z :=
  default 0 (requestCounts !! ip).

(** Start-up: the cached [currentProxyURL]. *)
Definition startup_currentProxyURL (get_active_proxy : option string) : string :=
  match get_active_proxy with
  | None => "https://localhost"
  | Some activeProxy => activeProxy
  end.

Section Wire.
Variable R : RegexpLib.
Variable G : GzipLib.
Variable headerRules : list HeaderRule.

(** proxy.ModifyResponse; [None] is the panic of applyHeaderRules.
    [resp.Request] carries the Accept-Encoding of the incoming request. *)
Definition ModifyResponse (r : Request) (resp : Response) : option Response :=
  match applyHeaderRules R headerRules (RespHeader resp) with
  | None => None
  | Some h =>
      if acceptsGzip r then
        Some {| StatusCode := StatusCode resp;
                RespHeader := Del (Set_ h "Content-Encoding" "gzip") "Content-Length";
                RespBody := gzip G (RespBody resp) |}
      else
        Some {| StatusCode := StatusCode resp; RespHeader := h;
                RespBody := RespBody resp |}
  end.

(** httputil.ReverseProxy.ServeHTTP with the default director (queue ==
    nil), writing to a ResponseWriter whose header map is [h0]: a failed
    round trip is answered 502 by the default error handler; otherwise the
    modified response is copied out (copyHeader, WriteHeader, body). *)
Definition ReverseProxy_ServeHTTP (w : World) (r : Request) (body : bytes)
    (h0 : Header) : option Written :=
  match backend w body with
  | None => Some {| w_header := h0; w_status := 502; w_body := [] |}
  | Some resp =>
      match ModifyResponse r resp with
      | None => None
      | Some resp' =>
          Some {| w_header := copyHeader h0 (RespHeader resp');
                  w_status := StatusCode resp';
                  w_body := RespBody resp' |}
      end
  end.

(** The three calls of the MALICIOUS branch on the ResponseWriter. *)
Definition write_page (contentType : string) (code : Z) (content : bytes)
    (h0 : Header) : option Written :=
  Some {| w_header := Set_ h0 "Content-Type" contentType;
          w_status := code; w_body := content |}.

(** gzipMiddleware(next): when the request advertises gzip, the header
    gets Content-Encoding: gzip before [next] runs, and what [next] writes
    goes through a gzip.Writer closed when the handler returns. *)
Definition gzipMiddleware (next : Header -> option Written) (r : Request)
    (h0 : Header) : option Written :=
  if negb (acceptsGzip r) then next h0
  else
    match next (Set_ h0 "Content-Encoding" "gzip") with
    | None => None
    | Some wr =>
        Some {| w_header := w_header wr; w_status := w_status wr;
                w_body := gzip G (w_body wr) |}
    end.

End Wire.

End Worker.

(** ** The public entry point (main) and ProxyManager.ServeHTTP *)
Module Entry.
Import Http Registry.

(** Modelled from the spec: SuspiciousRating.UpdateRating, whose code is not
    among the sources; the spec gives it as an atomic increment of the
    per-IP integer kept in the store.  A record that does not exist yet
    counts from 0. *)
Definition UpdateRating (ratings : gmap string Z) (ip : string) (delta : Z)
  : gmap string Z :=
  <[ip := default 0 (ratings !! ip) + delta]> ratings.

(** Modelled from the spec: SuspiciousRating.GetRating, whose code is not
    among the sources; the spec gives it as a read of the per-IP integer. *)
Definition GetRating (ratings : gmap string Z) (ip : string) : Z :=
  default 0 (ratings !! ip).

(** The flags and globals the handler closes over. *)
Record Config : Type := {
  aclConfig_set : bool;      (* aclConfig != nil *)
  apiFlag : bool;
  enableDetection : bool;    (* then suspiciousRating != nil *)
  maxSuspicion : Z
}.

(** What the collaborators outside the sources answer for one request. *)
Record World : Type := {
  HandleRequestWithACL : bool;
  DetectAttack : bool
}.

Inductive Reply : Type :=
| ByACL                                   (* HandleRequestWithACL answered *)
| ByApiMux                                (* mux.ServeHTTP(w, r) *)
| Error (msg : string) (code : Z)
| Redirect (url : string) (code : Z).

Section Handlers.
Variable U : UrlLib.

(** The handler main registers on "/" (inside SessionMiddleware): the new
    ratings in the store and the reply. *)
Definition handle (cfg : Config) (pm : ProxyManager U)
    (ratings : gmap string Z) (r : Request) (w : World)
  : gmap string Z * Reply :=
  if aclConfig_set cfg && HandleRequestWithACL w then (ratings, ByACL)
  else if Strings.HasPrefix (URL_Path r) "/api/" then
    if apiFlag cfg then (ratings, ByApiMux)
    else (ratings, Error "API not enabled" 404)
  else
    let ip := RemoteAddr r in
    let ratings1 :=
      if enableDetection cfg && DetectAttack w
      then UpdateRating ratings ip 5 else ratings in
    if enableDetection cfg && (maxSuspicion cfg <? GetRating ratings1 ip)%Z then
      (ratings1, Error "Forbidden" 403)
    else
      let ratings2 :=
        if enableDetection cfg then UpdateRating ratings1 ip 1 else ratings1 in
      match GetProxy U pm with
      | None => (ratings2, Error "No active proxy available" 503)
      | Some proxy =>
          (ratings2, Redirect (url_String U proxy +:+ URL_RequestURI r) 307)
      end.

(** The patterns on main's mux: those of setupAPIRoutes (its code is not
    among the sources) when -api is given, then /metrics and "/".  A
    pattern is registered once: [apiPatterns] has neither /metrics nor
    "/". *)
Definition patterns (cfg : Config) (apiPatterns : list string) : list string :=
  ((if apiFlag cfg then apiPatterns else []) ++ ["/metrics"; "/"])%list.

(** The mux hands the request to the handler registered on "/". *)
Definition to_handler (P : Mux.PathLib) (cfg : Config)
    (apiPatterns : list string) (r : Request) : bool :=
  match Mux.ServeHTTP P (patterns cfg apiPatterns) r with
  | Mux.Matched pattern => String.eqb pattern "/"
  | _ => false
  end.

(** What the entry point does with a request. *)
Inductive Answer : Type :=
| ByMux (rt : Mux.Route)          (* the mux answers itself: 400, 301 or 404 *)
| ByApiRoute (pattern : string)   (* a handler setupAPIRoutes registered *)
| ByMetrics                       (* promhttp.Handler() *)
| BySession                       (* SessionMiddleware, without the handler *)
| ByHandler (reply : Reply).      (* the handler on "/" *)

(** The mux of main: the new ratings and the answer.  SessionMiddleware,
    whose code is not among the sources, is an input: [session] says
    whether it calls the handler it wraps.  The routes of the API and
    SessionMiddleware are given the ratings as they are. *)
Definition mux (P : Mux.PathLib) (cfg : Config) (apiPatterns : list string)
    (pm : ProxyManager U) (ratings : gmap string Z) (r : Request)
    (session : bool) (w : World) : gmap string Z * Answer :=
  match Mux.ServeHTTP P (patterns cfg apiPatterns) r with
  | Mux.Matched pattern =>
      if String.eqb pattern "/" then
        if session then
          let x := handle cfg pm ratings r w in (x.1, ByHandler x.2)
        else (ratings, BySession)
      else if String.eqb pattern "/metrics" then (ratings, ByMetrics)
      else (ratings, ByApiRoute pattern)
  | rt => (ratings, ByMux rt)
  end.

(** GetActiveProxy: the store's active_proxy, parsed. *)
Definition GetActiveProxy (get_active_proxy : option string) : option (URL U) :=
  match get_active_proxy with
  | None => None
  | Some activeProxyStr => url_Parse U activeProxyStr
  end.

Inductive Served : Type :=
| SError (msg : string) (code : Z)
| SRedirect (url : string) (code : Z)
| SProxied (target : URL U).

(** ProxyManager.ServeHTTP.  Every path ends in the deferred
    [pm.GetProxy().String()], a nil dereference when the cursor is nil:
    the result is then [None]. *)
Definition ServeHTTP (pm : ProxyManager U) (r : Request)
    (get_active_proxy : option string) : option Served :=
  match GetProxy U pm with
  | None => None
  | Some activeProxyURL =>
      Some
        match GetActiveProxy get_active_proxy with
        | None => SError "Internal Server Error" 500
        | Some activeProxy =>
            if negb (String.eqb (URL_Scheme r) (url_Scheme U activeProxyURL))
               || negb (String.eqb (Strings.before_colon (URL_Host r))
                          (Strings.before_colon (url_Host U activeProxyURL)))
            then SRedirect (url_String U activeProxyURL +:+ RequestURI r) 307
            else SProxied activeProxy
        end
  end.

End Handlers.

End Entry.

(** ** Small instances of the library interfaces, for evaluation *)
Module Instances.

(** Absolute URLs [scheme://host/path]; a string without [://] is
    refused. *)
Record SimpleURL : Type := {
  s_scheme : string;
  s_host : string;
  s_path : string
}.

Fixpoint before_slash (s : string) : string :=
  match s with
  | EmptyString => EmptyString
  | String c s' => if Ascii.eqb c "/"%char then EmptyString else String c (before_slash s')
  end.

Definition drop_string (n : nat) (s : string) : string :=
  String.substring n (String.length s - n) s.

Definition simple_parse (s : string) : option SimpleURL :=
  match String.index 0 "://" s with
  | None => None
  | Some i =>
      let rest := drop_string (i + 3) s in
      let h := before_slash rest in
      Some {| s_scheme := String.substring 0 i s; s_host := h;
              s_path := drop_string (String.length h) rest |}
  end.

Definition simple_string (u : SimpleURL) : string :=
  s_scheme u +:+ "://" +:+ s_host u +:+ s_path u.

Definition SimpleUrl : UrlLib :=
  {| URL := SimpleURL; url_Parse := simple_parse; url_String := simple_string;
     url_Scheme := s_scheme; url_Host := s_host |}.

(** cleanPath by the rules path.Clean documents, on the path made rooted:
    empty and dot elements are dropped, a dot-dot element drops the element
    before it (none at the root), and a trailing slash is kept. *)
Fixpoint split_slash (s : string) : list string :=
  match s with
  | EmptyString => [EmptyString]
  | String c s' =>
      if Ascii.eqb c "/"%char then EmptyString :: split_slash s'
      else match split_slash s' with
           | f :: fs => String c f :: fs
           | [] => [String c EmptyString]
           end
  end.

Definition clean_step (stack : list string) (e : string) : list string :=
  if String.eqb e EmptyString || String.eqb e "." then stack
  else if String.eqb e ".." then tail stack
  else e :: stack.

Fixpoint join_slash (l : list string) : string :=
  match l with
  | [] => EmptyString
  | e :: rest => "/" +:+ e +:+ join_slash rest
  end.

Definition simple_cleanPath (p : string) : string :=
  if String.eqb p EmptyString then "/"
  else
    let rooted := if String.prefix "/" p then p else "/" +:+ p in
    let elems := rev (fold_left clean_step (split_slash rooted) []) in
    match elems with
    | [] => "/"
    | _ :: _ =>
        if Mux.ends_in_slash rooted then join_slash elems +:+ "/"
        else join_slash elems
    end.

Definition SimplePath : Mux.PathLib := {| Mux.cleanPath := simple_cleanPath |}.

(** Literal patterns only: a pattern with a metacharacter is refused (Go
    refuses some of them, an unbalanced parenthesis for one), and the
    replacement is taken literally. *)
Definition is_meta (c : ascii) : bool :=
  existsb (Ascii.eqb c) (list_ascii_of_string "\.+*?()|[]{}^$").

Definition literal_compile (p : string) : option string :=
  if existsb is_meta (list_ascii_of_string p) then None else Some p.

Fixpoint literal_replace (fuel : nat) (pat repl s : string) : string :=
  match fuel with
  | O => s
  | S f =>
      match s with
      | EmptyString => EmptyString
      | String c s' =>
          if String.prefix pat s
          then repl +:+ literal_replace f pat repl (drop_string (String.length pat) s)
          else String c (literal_replace f pat repl s')
      end
  end.

Definition LiteralRegexp : RegexpLib :=
  {| Regexp := string; regexp_Compile := literal_compile;
     ReplaceAllString := fun re src repl =>
       literal_replace (S (String.length src)) re repl src |}.

(** The magic number followed by the data as it is.  It is not the DEFLATE
    stream Go emits; it satisfies [GzipLaws], which is all the properties
    use of gzip. *)
Definition framing_gunzip (b : bytes) : option bytes :=
  match b with
  | Byte.x1f :: Byte.x8b :: t => Some t
  | _ => None
  end.

Definition FramingGzip : GzipLib :=
  {| gzip := fun b => Byte.x1f :: Byte.x8b :: b; gunzip := framing_gunzip |}.

End Instances.

(** ** Concrete requests, worlds and registries used in the examples *)
Module Examples.
Import HttpHeader Http Instances.

(** GET https://host:8082/x from 10.0.0.5 (scenario S1). *)
Definition req_8082 : Request :=
  {| Method := "GET"; Host := "host:8082"; RequestURI := "/x";
     RemoteAddr := "10.0.0.5:40000"; URL_Scheme := EmptyString; URL_Host := EmptyString;
     URL_Path := "/x"; URL_RequestURI := "/x"; ReqHeader := ∅ |}.

(** The same request sent to the worker on 8081. *)
Definition req_8081 : Request :=
  {| Method := "GET"; Host := "host:8081"; RequestURI := "/x";
     RemoteAddr := "10.0.0.5:40000"; URL_Scheme := EmptyString; URL_Host := EmptyString;
     URL_Path := "/x"; URL_RequestURI := "/x"; ReqHeader := ∅ |}.

(** POST /login with the body of scenario S2, advertising gzip or not. *)
Definition req_login (h : Header) : Request :=
  {| Method := "POST"; Host := "host:8081"; RequestURI := "/login";
     RemoteAddr := "10.0.0.5:40000"; URL_Scheme := EmptyString; URL_Host := EmptyString;
     URL_Path := "/login"; URL_RequestURI := "/login"; ReqHeader := h |}.

Definition gzip_header : Header := Set_ ∅ "Accept-Encoding" "gzip".

Definition login_body : bytes := list_byte_of_string "user=admin&pw=' OR 1=1".
Definition page_403 : bytes := list_byte_of_string "<h1>Forbidden</h1>".
Definition hello : bytes := list_byte_of_string "hello".

Definition backend_hello (_ : bytes) : option Response :=
  Some {| StatusCode := 200; RespHeader := Set_ ∅ "Content-Type" "text/plain";
          RespBody := hello |}.

(** A world in which the store is reachable and names the worker on 8081,
    the detector finds every request malicious, and 403.html is as given. *)
Definition world (store : option string) (f403 : option bytes) : Worker.World :=
  {| Worker.store_active_proxy := store;
     Worker.read_body := Some login_body;
     Worker.detector := fun _ _ =>
       Some {[ "authorized" := Worker.AString "MALICIOUS" ]};
     Worker.file_403 := f403;
     Worker.backend := backend_hello |}.

Definition active_8081 : option string := Some "https://host:8081".

(** 500 requests seen so far from the client. *)
Definition counts_500 : gmap string Z := {[ "10.0.0.5:40000" := 500 ]}.

Definition two_proxies : list string := ["https://host:8081"; "https://host:8082"].

(** Two Set-Cookie occurrences and a rule replacing a by b in Set-Cookie. *)
Definition two_cookies : Header :=
  Add (Add ∅ "Set-Cookie" "a=1") "Set-Cookie" "a=2".

Definition rule_a_to_b : HeaderRules.HeaderRule :=
  {| HeaderRules.Action := "replace-header"; HeaderRules.Header_ := "Set-Cookie";
     HeaderRules.Value := EmptyString; HeaderRules.Regex := "a";
     HeaderRules.Replacement := "b" |}.

(** A rule whose regex has an unbalanced parenthesis. *)
Definition rule_bad_regex : HeaderRules.HeaderRule :=
  {| HeaderRules.Action := "replace-header"; HeaderRules.Header_ := "Content-Type";
     HeaderRules.Value := EmptyString; HeaderRules.Regex := "(";
     HeaderRules.Replacement := "x" |}.

(** A request whose Host is the default of the worker's start-up. *)
Definition req_localhost : Request :=
  {| Method := "GET"; Host := "localhost"; RequestURI := "/x";
     RemoteAddr := "10.0.0.5:40000"; URL_Scheme := EmptyString; URL_Host := EmptyString;
     URL_Path := "/x"; URL_RequestURI := "/x"; ReqHeader := ∅ |}.

(** The entry point with detection enabled, the threshold of main. *)
Definition entry_config : Entry.Config :=
  {| Entry.aclConfig_set := false; Entry.apiFlag := false;
     Entry.enableDetection := true; Entry.maxSuspicion := 20 |}.

Definition attack : Entry.World :=
  {| Entry.HandleRequestWithACL := false; Entry.DetectAttack := true |}.

Definition benign : Entry.World :=
  {| Entry.HandleRequestWithACL := false; Entry.DetectAttack := false |}.

(** The registry of two endpoints, as NewProxyManager builds it. *)
Definition registry_8081 : Registry.ProxyManager SimpleUrl :=
  Registry.Build_ProxyManager SimpleUrl (map simple_parse two_proxies)
    (simple_parse "https://host:8081") EmptyString.

(** The rule of scenario S3. *)
Definition rule_frame_deny : HeaderRules.HeaderRule :=
  {| HeaderRules.Action := "set-header"; HeaderRules.Header_ := "X-Frame-Options";
     HeaderRules.Value := "DENY"; HeaderRules.Regex := EmptyString;
     HeaderRules.Replacement := EmptyString |}.

(** The health check of the worker on 8082. *)
Definition req_health : Request :=
  {| Method := "GET"; Host := "host:8082"; RequestURI := "/health";
     RemoteAddr := "10.0.0.5:40000"; URL_Scheme := EmptyString; URL_Host := EmptyString;
     URL_Path := "/health"; URL_RequestURI := "/health"; ReqHeader := ∅ |}.

(** GET /x to the worker on 8081, from another port of 10.0.0.5. *)
Definition req_8081_port_40001 : Request :=
  {| Method := "GET"; Host := "host:8081"; RequestURI := "/x";
     RemoteAddr := "10.0.0.5:40001"; URL_Scheme := EmptyString; URL_Host := EmptyString;
     URL_Path := "/x"; URL_RequestURI := "/x"; ReqHeader := ∅ |}.

(** GET /metrics at the entry point. *)
Definition req_metrics : Request :=
  {| Method := "GET"; Host := "host"; RequestURI := "/metrics";
     RemoteAddr := "10.0.0.5:40000"; URL_Scheme := EmptyString; URL_Host := EmptyString;
     URL_Path := "/metrics"; URL_RequestURI := "/metrics"; ReqHeader := ∅ |}.

(** The entry point without ACL, API and detection. *)
Definition plain_config : Entry.Config :=
  {| Entry.aclConfig_set := false; Entry.apiFlag := false;
     Entry.enableDetection := false; Entry.maxSuspicion := 20 |}.

End Examples.

(** ** main: the host, the ports and the proxy configurations *)
Module Setup.

(** One entry of net.InterfaceAddrs(), as far as getServerIPAddress looks
    at it: an IPNet with its IP, or another kind of address. *)
Record IP : Type := {
  To4 : bool;            (* ip.To4() != nil *)
  IsLoopback : bool;
  IP_String : string
}.

Inductive Addr : Type :=
| IPNet (ip : IP)
| OtherAddr.

(** An IPv4 address that is not a loopback address. *)
Definition public4 (ip : IP) : Prop := To4 ip = true /\ IsLoopback ip = false.

(** The loop of getServerIPAddress: [inl s] when it returns [s] from inside
    the loop, [inr loopbackIP] when it runs to the end. *)
Fixpoint scan_addrs (addrs : list Addr) (loopbackIP : string) : string + string :=
  match addrs with
  | [] => inr loopbackIP
  | IPNet ip :: rest =>
      if To4 ip then
        if IsLoopback ip then scan_addrs rest (IP_String ip)
        else inl (IP_String ip)
      else scan_addrs rest loopbackIP
  | OtherAddr :: rest => scan_addrs rest loopbackIP
  end.

(** getServerIPAddress; the argument is the result of net.InterfaceAddrs
    ([None] on error, which is logged and leaves a nil slice), the result
    is [None] where the function ends in log.Fatalf. *)
Definition getServerIPAddress (interfaceAddrs : option (list Addr)) : option string :=
  match scan_addrs (default [] interfaceAddrs) EmptyString with
  | inl s => Some s
  | inr loopbackIP =>
      if negb (String.eqb loopbackIP EmptyString) then Some loopbackIP else None
  end.

(** The host main uses in the proxy URLs, from the flags -ip and -d. *)
Definition serverIP (ServerIPArg domain : string)
    (interfaceAddrs : option (list Addr)) : option string :=
  if negb (String.eqb ServerIPArg EmptyString) then
    if negb (String.eqb domain EmptyString) then Some domain
    else Some ServerIPArg
  else
    if negb (String.eqb domain EmptyString) then Some domain
    else getServerIPAddress interfaceAddrs.

(** strings.Split(s, ","): the fields between the commas, at least one. *)
Fixpoint split_comma (s : string) : list string :=
  match s with
  | EmptyString => [EmptyString]
  | String c s' =>
      if Ascii.eqb c ","%char then EmptyString :: split_comma s'
      else match split_comma s' with
           | f :: fs => String c f :: fs
           | [] => [String c EmptyString]
           end
  end.

Definition defaultPorts : list string := ["8081"; "8082"; "8083"; "8084"].

(** [portList], after the check against -proxy-count. *)
Definition portList (proxyPorts : string) (proxyCount : Z) : list string :=
  let l := split_comma proxyPorts in
  if (Z.of_nat (length l) <? proxyCount)%Z then defaultPorts else l.

Record ProxyConfig : Type := {
  id : string;
  address : string;
  backendURL : string
}.

(** The configuration built in iteration [i] of the loop;
    [portList[i%len(portList)]] panics on an empty list. *)
Definition proxyConfig (ports : list string) (backend : string) (i : nat)
  : option ProxyConfig :=
  match ports !! (i mod length ports)%nat with
  | None => None
  | Some port =>
      Some {| id := "proxy" +:+ pretty (S i); address := ":" +:+ port;
              backendURL := backend |}
  end.

(** [for i := 0; i < *proxyCount; i++]: the configurations in order. *)
Definition proxyConfigs (ports : list string) (backend : string)
    (proxyCount : Z) : option (list ProxyConfig) :=
  mapM (proxyConfig ports backend) (seq 0 (Z.to_nat proxyCount)).

(** [backendURLserver], from the flag -web-server. *)
Definition backendURLserver (BackendURLFlag : string) : string :=
  if negb (String.eqb BackendURLFlag EmptyString) then BackendURLFlag
  else "http://127.0.0.1:5000".

Definition proxyURLs (host : string) (configs : list ProxyConfig) : list string :=
  map (fun config => "https://" +:+ host +:+ address config) configs.

(** What main meets outside the program between the choice of the host and
    the construction of the registry. *)
Record Outside : Type := {
  (** net.InterfaceAddrs(), [None] on an error *)
  InterfaceAddrs : option (list Addr);
  (** with -queue-system: the calls NewQueue, ensureQueueSetup and
      addTestMessage, whose code is not among the sources, return *)
  queue_setup : bool;
  (** LoadACLConfig returns no error *)
  LoadACLConfig : bool
}.

(** main from the choice of the host to the construction of the registry
    (utils.go 531-618): [None] where the process ends before it has a
    registry (log.Fatalf in getServerIPAddress or on the ACL file, or a
    panic).  Loading the header rules only logs its errors.  What comes
    before in main (the log files, the certificates) is not part of it. *)
Definition main_registry (U : UrlLib) (ServerIPArg domain : string)
    (queueSystem : bool) (aclFile proxyPorts BackendURLFlag : string)
    (proxyCount : Z) (o : Outside)
  : option (list ProxyConfig * Registry.ProxyManager U) :=
  match serverIP ServerIPArg domain (InterfaceAddrs o) with
  | None => None
  | Some host =>
      if queueSystem && negb (queue_setup o) then None
      else if negb (String.eqb aclFile EmptyString) && negb (LoadACLConfig o)
      then None
      else
        match proxyConfigs (portList proxyPorts proxyCount)
                (backendURLserver BackendURLFlag) proxyCount with
        | None => None
        | Some configs =>
            match Registry.NewProxyManager U (proxyURLs host configs) domain with
            | None => None
            | Some pm => Some (configs, pm)
            end
        end
  end.

End Setup.

(** ** generateAPIKey *)
Module ApiKey.

Definition hextable : string := "0123456789abcdef".

Definition hexdigit (n : N) : ascii :=
  match String.get (N.to_nat n) hextable with
  | Some c => c
  | None => "0"%char
  end.

(** hex.EncodeToString: two digits per byte, the high one first. *)
Fixpoint EncodeToString (src : bytes) : string :=
  match src with
  | [] => EmptyString
  | b :: rest =>
      let n := Byte.to_N b in
      String (hexdigit (n / 16)) (String (hexdigit (n mod 16)) (EncodeToString rest))
  end.

(** generateAPIKey; the argument is what rand.Read leaves in the 32-byte
    key, [None] when it fails (log.Fatalf). *)
Definition generateAPIKey (rand_Read : option bytes) : option string :=
  match rand_Read with
  | None => None
  | Some key => Some (EncodeToString key)
  end.

End ApiKey.

(** ** The director of a worker with a queue *)
Module Director.
Import HttpHeader.

(** The fields of the outgoing request the director touches. *)
Record Outgoing : Type := {
  out_Scheme : string;
  out_Host : string;
  out_Path : string;
  out_Header : Header
}.

(** A message that carries no redirect_url string. *)
Definition no_redirect (values : gmap string Worker.Any) : Prop :=
  forall s, values !! "redirect_url" <> Some (Worker.AString s).

Section Director.
Variable U : UrlLib.
(** [u.Path] of a parsed URL *)
Variable url_Path : URL U -> string.
(** the director NewSingleHostReverseProxy installs *)
Variable originalDirector : Outgoing -> Outgoing.

(** The body of the loop over the messages; [None] is the nil dereference
    after a failed url.Parse. *)
Definition apply_message (req : Outgoing) (values : gmap string Worker.Any)
  : option Outgoing :=
  let req1 :=
    match values !! "block" with
    | Some (Worker.AString s) =>
        if String.eqb s "true"
        then {| out_Scheme := out_Scheme req; out_Host := EmptyString;
                out_Path := out_Path req; out_Header := out_Header req |}
        else req
    | _ => req
    end in
  match values !! "redirect_url" with
  | Some (Worker.AString newURL) =>
      match url_Parse U newURL with
      | None => None
      | Some parsedNewURL =>
          Some {| out_Scheme := url_Scheme U parsedNewURL;
                  out_Host := url_Host U parsedNewURL;
                  out_Path := url_Path parsedNewURL;
                  out_Header := out_Header req1 |}
      end
  | _ => Some req1
  end.

Fixpoint apply_messages (req : Outgoing) (msgs : list (gmap string Worker.Any))
  : option Outgoing :=
  match msgs with
  | [] => Some req
  | values :: rest =>
      match apply_message req values with
      | None => None
      | Some req' => apply_messages req' rest
      end
  end.

(** proxy.Director as StartProxyServer sets it.  [queue] says whether a
    queue was given; [xReadGroup] is the result of the XReadGroup call, one
    list of messages per stream, [None] on an error (a timeout included);
    [messages[0]] panics on an empty result. *)
Definition Director (queue : bool) (proxyID : string)
    (xReadGroup : option (list (list (gmap string Worker.Any))))
    (req : Outgoing) : option Outgoing :=
  if negb queue then Some (originalDirector req)
  else
    let req0 := originalDirector req in
    let req1 := {| out_Scheme := out_Scheme req0; out_Host := out_Host req0;
                   out_Path := out_Path req0;
                   out_Header := Add (out_Header req0) "X-Proxy-ID" proxyID |} in
    match xReadGroup with
    | None => Some req1
    | Some messages =>
        match messages !! 0%nat with
        | None => None
        | Some msgs => apply_messages req1 msgs
        end
    end.

End Director.

End Director.

(** ** The rotation loop and the workers' subscriber *)
Module Rotation.

Section Rotation.
Variable U : UrlLib.

(** startAutoSwitch over the ticks given by their random generators: the
    registry it leaves, the URLs announced (written under active_proxy and
    published on proxy_updates), oldest first, and whether the loop is
    still running.  The loop ends with the process when switchProxy
    panics. *)
Fixpoint startAutoSwitch (draws : list (nat -> nat)) (pm : Registry.ProxyManager U)
  : Registry.ProxyManager U * list string * bool :=
  match draws with
  | [] => (pm, [], true)
  | draw :: rest =>
      match Registry.switchProxy U draw pm with
      | Registry.Panicked pm' => (pm', [], false)
      | Registry.Returned pm' active =>
          let x := startAutoSwitch rest pm' in
          (x.1.1, active :: x.1.2, x.2)
      end
  end.

End Rotation.

(** The generator outcome that exchanges position [k] with position 0 and
    nothing else: at step [k] it yields 0, at every other step [i] it
    yields [i]. *)
Definition pick (k : nat) (i : nat) : nat := if Nat.eqb i k then O else i.

(** The subscriber goroutine of a worker: [currentProxyURL] after the
    payloads received on proxy_updates, in order. *)
Definition subscriber (currentProxyURL : string) (payloads : list string) : string :=
  fold_left (fun _ payload => payload) payloads currentProxyURL.

End Rotation.

(** ** The entry point over a sequence of requests *)
Module EntryRun.
Import Http Registry Entry.

(** The requests that reach the handler main registers on "/" (its mux
    routes the others elsewhere), each with the registry as it is when the
    request arrives and the collaborators' answers. *)
Fixpoint serve (U : UrlLib) (cfg : Config) (ratings : gmap string Z)
    (rs : list (ProxyManager U * Request * World))
  : gmap string Z * list Reply :=
  match rs with
  | [] => (ratings, [])
  | (pm, r, w) :: rest =>
      let x := handle U cfg pm ratings r w in
      let y := serve U cfg x.1 rest in
      (y.1, x.2 :: y.2)
  end.

(** A request that reaches the rating step: not answered by the ACL and no
    /api/ request. *)
Definition rated (cfg : Config) (r : Request) (w : World) : bool :=
  negb (aclConfig_set cfg && HandleRequestWithACL w)
  && negb (Strings.HasPrefix (URL_Path r) "/api/").

(** How many of the requests come from the address [ip]. *)
Fixpoint seen (U : UrlLib) (ip : string)
    (rs : list (ProxyManager U * Request * World)) : nat :=
  match rs with
  | [] => O
  | (_, r, _) :: rest =>
      ((if String.eqb (RemoteAddr r) ip then 1 else 0) + seen U ip rest)%nat
  end.

End EntryRun.

(** * Properties *)

Module RegistryFacts.
Import Registry.

Section Shuffle.
Context {A : Type}.
Implicit Types l : list A.

Lemma swap_Permutation l i j : swap l i j ≡ₚ l.
Proof.
  unfold swap.
  destruct (l !! i) as [x|] eqn:Hi; [|reflexivity].
  destruct (l !! j) as [y|] eqn:Hj; [|reflexivity].
  by apply Permutation_insert_swap.
Qed.

Lemma shuffle_from_Permutation draw i l : shuffle_from draw i l ≡ₚ l.
Proof.
  revert l. induction i as [|i IH]; intros l; simpl; [reflexivity|].
  rewrite IH. apply swap_Permutation.
Qed.

Lemma Shuffle_Permutation draw n l : Shuffle draw n l ≡ₚ l.
Proof. apply shuffle_from_Permutation. Qed.

End Shuffle.

Section Manager.
Variable U : UrlLib.
Implicit Types pm : ProxyManager U.

Lemma NewProxyManager_Inv urls dom pm :
  NewProxyManager U urls dom = Some pm -> Inv pm.
Proof.
  unfold NewProxyManager, Inv. intros H.
  destruct (map (url_Parse U) urls !! 0%nat) as [p|] eqn:H0; [|discriminate].
  injection H as <-. simpl. split.
  - intros E. rewrite E in H0. discriminate.
  - eapply list_elem_of_lookup_2. exact H0.
Qed.

Lemma switchProxy_proxies draw pm :
  proxies (state_after (switchProxy U draw pm)) ≡ₚ proxies pm.
Proof.
  unfold switchProxy.
  set (ps := Shuffle draw _ _).
  assert (ps ≡ₚ proxies pm) as Hp by apply Shuffle_Permutation.
  destruct (ps !! 0%nat) as [[u|]|]; exact Hp.
Qed.

Lemma switchProxy_cursor draw pm :
  proxies pm <> [] ->
  let pm' := state_after (switchProxy U draw pm) in
  proxies pm' !! 0%nat = Some (currentProxy pm').
Proof.
  intros Hne. unfold switchProxy.
  set (ps := Shuffle draw _ _).
  assert (ps ≡ₚ proxies pm) as Hp by apply Shuffle_Permutation.
  destruct (ps !! 0%nat) as [[u|]|] eqn:H0; simpl; try exact H0.
  destruct ps as [|p ps']; [|discriminate].
  apply Permutation_nil_l in Hp. congruence.
Qed.

Lemma switchProxy_Inv draw pm :
  Inv pm -> Inv (state_after (switchProxy U draw pm)).
Proof.
  intros [Hne Hin]. split.
  - intros E. pose proof (switchProxy_proxies draw pm) as Hp.
    rewrite E in Hp. apply Permutation_nil_l in Hp. congruence.
  - eapply list_elem_of_lookup_2. by apply switchProxy_cursor.
Qed.

End Manager.

(** C2.  The registry's invariant holds in every reachable state: the list
    of endpoints is not empty and the cursor [currentProxy] is one of its
    members.  NewProxyManager establishes it; a rotation keeps it, leaves a
    permutation of the list and has the cursor at position 0. *)
Theorem registry_invariant (U : UrlLib) :
  (forall urls dom pm, NewProxyManager U urls dom = Some pm -> Inv pm) /\
  (forall draw (pm : ProxyManager U), Inv pm ->
     let pm' := state_after (switchProxy U draw pm) in
     Inv pm' /\ proxies pm' ≡ₚ proxies pm /\
     proxies pm' !! 0%nat = Some (currentProxy pm')) /\
  (forall pm : ProxyManager U, reachable U pm -> Inv pm).
Proof.
  split; [|split].
  - apply NewProxyManager_Inv.
  - intros draw pm HI pm'. split; [|split].
    + by apply switchProxy_Inv.
    + apply switchProxy_proxies.
    + apply switchProxy_cursor. apply HI.
  - intros pm Hr. induction Hr as [urls dom pm Hnew|draw pm Hr IH].
    + by eapply NewProxyManager_Inv.
    + by apply switchProxy_Inv.
Qed.

(** The invariant after two rotations of a registry of two endpoints. *)
Lemma registry_invariant_witness :
  exists pm0,
    NewProxyManager Instances.SimpleUrl Examples.two_proxies EmptyString = Some pm0 /\
    Inv (state_after (switchProxy _ (fun _ => 1%nat)
           (state_after (switchProxy _ (fun _ => 0%nat) pm0)))).
Proof.
  eexists. split; [reflexivity|].
  apply (proj2 (proj2 (registry_invariant Instances.SimpleUrl))).
  do 2 apply reach_switch.
  apply (reach_new _ Examples.two_proxies EmptyString). reflexivity.
Defined.

End RegistryFacts.

Module GoIntFacts.
Import GoInt.

Lemma incr_0 : incr 0 = 1.
Proof. reflexivity. Qed.

(** Below the largest int, [x++] is the mathematical successor. *)
Lemma incr_exact n : in_range n -> n < max_int -> incr n = n + 1.
Proof.
  unfold in_range, min_int, max_int, incr, wrap.
  change (2 ^ 63) with 9223372036854775808.
  change (2 ^ 64) with 18446744073709551616.
  intros [Hlo Hhi] Hlt.
  rewrite Z.mod_small by lia. lia.
Qed.

(** At the largest int it wraps to the smallest. *)
Lemma incr_max : incr max_int = min_int.
Proof. reflexivity. Qed.

End GoIntFacts.

Module HeaderFacts.
Import HttpHeader.
Implicit Types (h : Header) (k v : string).

Lemma Get_Values h k : Get h k = default EmptyString (head (Values h k)).
Proof.
  unfold Get, Values. destruct (h !! CanonicalMIMEHeaderKey k) as [[|x l]|]; reflexivity.
Qed.

Lemma Values_Set_eq h k v : Values (Set_ h k v) k = [v].
Proof. unfold Values, Set_. by rewrite lookup_insert_eq. Qed.

Lemma Values_Set_ne h k k' v :
  CanonicalMIMEHeaderKey k <> CanonicalMIMEHeaderKey k' ->
  Values (Set_ h k v) k' = Values h k'.
Proof. intros H. unfold Values, Set_. by rewrite lookup_insert_ne. Qed.

Lemma Get_Set_eq h k v : Get (Set_ h k v) k = v.
Proof. by rewrite Get_Values, Values_Set_eq. Qed.

Lemma Get_Set_ne h k k' v :
  CanonicalMIMEHeaderKey k <> CanonicalMIMEHeaderKey k' ->
  Get (Set_ h k v) k' = Get h k'.
Proof. intros H. by rewrite !Get_Values, Values_Set_ne. Qed.

Lemma Values_Add_eq h k v : Values (Add h k v) k = (Values h k ++ [v])%list.
Proof. unfold Values, Add. by rewrite lookup_insert_eq. Qed.

Lemma Values_Del_eq h k : Values (Del h k) k = [].
Proof. unfold Values, Del. by rewrite lookup_delete_eq. Qed.

Lemma Values_Del_ne h k k' :
  CanonicalMIMEHeaderKey k <> CanonicalMIMEHeaderKey k' ->
  Values (Del h k) k' = Values h k'.
Proof. intros H. unfold Values, Del. by rewrite lookup_delete_ne. Qed.

(** copyHeader appends the copied occurrences to those already there. *)
Lemma Values_copyHeader (dst src : Header) k :
  Values (copyHeader dst src) k = (Values dst k ++ Values src k)%list.
Proof.
  unfold Values, copyHeader. rewrite lookup_merge.
  destruct (dst !! _) as [a|], (src !! _) as [[|b l]|]; simpl;
    rewrite ?app_nil_r; reflexivity.
Qed.

End HeaderFacts.

Module HeaderRulesFacts.
Import HttpHeader Http HeaderRules.

Section Engine.
Variable R : RegexpLib.
Implicit Types (h : Header) (rule : HeaderRule).

Lemma applyRule_replace rule h re :
  Action rule = "replace-header" ->
  Regex rule <> EmptyString ->
  Get h (Header_ rule) <> EmptyString ->
  regexp_Compile R (Regex rule) = Some re ->
  applyRule R h rule
  = Some (Set_ h (Header_ rule)
            (ReplaceAllString R re (Get h (Header_ rule)) (Replacement rule))).
Proof.
  intros Ha Hr Hv Hc. unfold applyRule. rewrite Ha. simpl.
  apply String.eqb_neq in Hr, Hv. by rewrite Hr, Hv, Hc.
Qed.

Lemma applyRule_panic rule h :
  Action rule = "replace-header" ->
  Regex rule <> EmptyString ->
  Get h (Header_ rule) <> EmptyString ->
  regexp_Compile R (Regex rule) = None ->
  applyRule R h rule = None.
Proof.
  intros Ha Hr Hv Hc. unfold applyRule. rewrite Ha. simpl.
  apply String.eqb_neq in Hr, Hv. by rewrite Hr, Hv, Hc.
Qed.

Lemma applyRule_total rule h : compiles R rule -> is_Some (applyRule R h rule).
Proof.
  intros Hc. unfold applyRule.
  destruct (String.eqb_spec (Action rule) "add-header"); [by eexists|].
  destruct (String.eqb_spec (Action rule) "set-header"); [by eexists|].
  destruct (String.eqb_spec (Action rule) "del-header"); [by eexists|].
  destruct (String.eqb_spec (Action rule) "replace-header") as [Ha|]; [|by eexists].
  destruct (String.eqb_spec (Regex rule) EmptyString) as [|Hr]; simpl; [by eexists|].
  destruct (String.eqb (Get h (Header_ rule)) EmptyString); simpl; [by eexists|].
  destruct (Hc Ha Hr) as [re ->]. by eexists.
Qed.

(** The engine returns for every rule list whose regexes compile. *)
Lemma applyHeaderRules_total headerRules h :
  Forall (compiles R) headerRules -> is_Some (applyHeaderRules R headerRules h).
Proof.
  intros HF. revert h.
  induction HF as [|rule rest Hc _ IH]; intros h; simpl; [by eexists|].
  destruct (applyRule_total rule h Hc) as [h' ->]. apply IH.
Qed.

(** The empty rule list changes nothing. *)
Lemma applyHeaderRules_nil h : applyHeaderRules R [] h = Some h.
Proof. reflexivity. Qed.

(** A replace-header rule with an empty regex changes nothing. *)
Lemma applyRule_empty_regex rule h :
  Action rule = "replace-header" -> Regex rule = EmptyString -> applyRule R h rule = Some h.
Proof. intros Ha Hr. unfold applyRule. by rewrite Ha, Hr. Qed.

End Engine.

(** C6 on the code.  A replace-header rule whose regex compiles rewrites
    the first occurrence of the named header only (all matches in it) and
    leaves that rewritten value as the header's single occurrence: the
    other occurrences are neither rewritten nor kept. *)
Theorem replace_header_first_occurrence_only (R : RegexpLib)
    (h : Header) rule re v vs :
  Action rule = "replace-header" ->
  Regex rule <> EmptyString ->
  regexp_Compile R (Regex rule) = Some re ->
  Values h (Header_ rule) = v :: vs ->
  v <> EmptyString ->
  exists h',
    applyHeaderRules R [rule] h = Some h' /\
    Values h' (Header_ rule) = [ReplaceAllString R re v (Replacement rule)].
Proof.
  intros Ha Hr Hc Hv Hne.
  assert (Get h (Header_ rule) = v) as Hg
    by (by rewrite HeaderFacts.Get_Values, Hv).
  simpl. rewrite (applyRule_replace R rule h re); try assumption.
  - eexists. split; [reflexivity|].
    by rewrite HeaderFacts.Values_Set_eq, Hg.
  - by rewrite Hg.
Qed.

(** Two Set-Cookie occurrences, a=1 and a=2, under the rule that replaces
    a by b: only b=1 is left. *)
Lemma replace_header_first_occurrence_only_witness :
  exists h',
    applyHeaderRules Instances.LiteralRegexp [Examples.rule_a_to_b]
      Examples.two_cookies = Some h' /\
    Values h' "Set-Cookie" = ["b=1"].
Proof.
  refine (replace_header_first_occurrence_only Instances.LiteralRegexp
            Examples.two_cookies Examples.rule_a_to_b "a" "a=1" ["a=2"]
            _ _ _ _ _).
  - reflexivity.
  - discriminate.
  - reflexivity.
  - reflexivity.
  - discriminate.
Defined.

(** C7 on the code.  A replace-header rule whose regex does not compile,
    met while the named header has a non-empty first value, makes
    applyHeaderRules panic (regexp.MustCompile): the rule is not skipped,
    and ModifyResponse and the reverse proxy's ServeHTTP are aborted with
    it, so no response is written. *)
Theorem uncompilable_regex_panics (R : RegexpLib) (G : GzipLib)
    rule rest w r body h0 resp :
  Action rule = "replace-header" ->
  Regex rule <> EmptyString ->
  regexp_Compile R (Regex rule) = None ->
  Get (RespHeader resp) (Header_ rule) <> EmptyString ->
  Worker.backend w body = Some resp ->
  applyHeaderRules R (rule :: rest) (RespHeader resp) = None /\
  Worker.ModifyResponse R G (rule :: rest) r resp = None /\
  Worker.ReverseProxy_ServeHTTP R G (rule :: rest) w r body h0 = None.
Proof.
  intros Ha Hr Hc Hv Hb.
  assert (applyHeaderRules R (rule :: rest) (RespHeader resp) = None) as E
    by (simpl; by rewrite applyRule_panic).
  split; [exact E|].
  unfold Worker.ReverseProxy_ServeHTTP, Worker.ModifyResponse.
  by rewrite Hb, E.
Qed.

(** A rule with the regex "(" applied to a response that carries the
    header. *)
Lemma uncompilable_regex_panics_witness :
  applyHeaderRules Instances.LiteralRegexp [Examples.rule_bad_regex]
    (Set_ ∅ "Content-Type" "text/plain") = None.
Proof.
  refine (proj1 (uncompilable_regex_panics Instances.LiteralRegexp
                   Instances.FramingGzip Examples.rule_bad_regex []
                   (Examples.world Examples.active_8081 None)
                   Examples.req_8081 Examples.login_body ∅
                   {| StatusCode := 200;
                      RespHeader := Set_ ∅ "Content-Type" "text/plain";
                      RespBody := Examples.hello |} _ _ _ _ _)).
  - reflexivity.
  - discriminate.
  - reflexivity.
  - vm_compute. discriminate.
  - reflexivity.
Defined.

Lemma applyHeaderRules_app (R : RegexpLib) (rules1 rules2 : list HeaderRule)
    (h : Header) :
  applyHeaderRules R (rules1 ++ rules2) h
  = match applyHeaderRules R rules1 h with
    | Some h' => applyHeaderRules R rules2 h'
    | None => None
    end.
Proof.
  revert h. induction rules1 as [|rule rest IH]; intros h; simpl; [reflexivity|].
  destruct (applyRule R h rule); [apply IH|reflexivity].
Qed.

(** The three actions that need no regex, on the occurrences of the named
    header: add-header appends the value as a new occurrence, set-header
    leaves the value as the single occurrence, del-header removes every
    occurrence. *)
Theorem header_actions (R : RegexpLib) (h : Header) rule :
  (Action rule = "add-header" ->
   exists h', applyHeaderRules R [rule] h = Some h' /\
     Values h' (Header_ rule) = (Values h (Header_ rule) ++ [Value rule])%list) /\
  (Action rule = "set-header" ->
   exists h', applyHeaderRules R [rule] h = Some h' /\
     Values h' (Header_ rule) = [Value rule]) /\
  (Action rule = "del-header" ->
   exists h', applyHeaderRules R [rule] h = Some h' /\
     Values h' (Header_ rule) = []).
Proof.
  split; [|split]; intros Ha; simpl; unfold applyRule; rewrite Ha; simpl;
    eexists; (split; [reflexivity|]).
  - apply HeaderFacts.Values_Add_eq.
  - apply HeaderFacts.Values_Set_eq.
  - apply HeaderFacts.Values_Del_eq.
Qed.

(** Scenario S3: the backend omits X-Frame-Options; after the rule the
    response carries exactly one X-Frame-Options: DENY. *)
Lemma header_actions_witness :
  exists h',
    applyHeaderRules Instances.LiteralRegexp [Examples.rule_frame_deny]
      (Set_ ∅ "Content-Type" "text/plain") = Some h' /\
    Values h' "X-Frame-Options" = ["DENY"].
Proof.
  exact (proj1 (proj2 (header_actions Instances.LiteralRegexp
                         (Set_ ∅ "Content-Type" "text/plain")
                         Examples.rule_frame_deny)) eq_refl).
Defined.

(** The engine returns a header for every rule list whose replace-header
    regexes compile, on every header; the empty list changes nothing, and a
    list is applied in order, each rule to the result of those before. *)
Theorem engine_total_when_regexes_compile (R : RegexpLib)
    (headerRules : list HeaderRule) (h : Header) :
  Forall (compiles R) headerRules ->
  is_Some (applyHeaderRules R headerRules h) /\
  applyHeaderRules R [] h = Some h /\
  (forall rules1 rules2,
     applyHeaderRules R (rules1 ++ rules2) h
     = match applyHeaderRules R rules1 h with
       | Some h' => applyHeaderRules R rules2 h'
       | None => None
       end).
Proof.
  intros HF. split; [by apply applyHeaderRules_total|].
  split; [reflexivity|]. intros. apply applyHeaderRules_app.
Qed.

(** The rule of scenario S3 followed by the literal replacement of a by b
    in Set-Cookie. *)
Lemma engine_total_when_regexes_compile_witness :
  is_Some (applyHeaderRules Instances.LiteralRegexp
             [Examples.rule_frame_deny; Examples.rule_a_to_b]
             Examples.two_cookies).
Proof.
  refine (proj1 (engine_total_when_regexes_compile Instances.LiteralRegexp
                   [Examples.rule_frame_deny; Examples.rule_a_to_b]
                   Examples.two_cookies _)).
  repeat constructor.
  - intros H. discriminate H.
  - intros _ _. by eexists.
Defined.

End HeaderRulesFacts.

Module MuxFacts.
Import Http Mux.

Lemma ends_in_slash_app p : ends_in_slash (p +:+ "/") = true.
Proof.
  induction p as [|c p IH]; [reflexivity|].
  change (ends_in_slash (String c (p +:+ "/")) = true).
  destruct (p +:+ "/") eqn:E; [discriminate IH|exact IH].
Qed.

Lemma append_slash_ne p q : ends_in_slash q = false -> p +:+ "/" <> q.
Proof. intros H <-. by rewrite ends_in_slash_app in H. Qed.

Lemma append_slash_root p : p +:+ "/" = "/" -> p = EmptyString.
Proof.
  destruct p as [|c p]; [done|]. cbn [String.append].
  intros H. injection H as _ H. by destruct p.
Qed.

(** A mux with one pattern that does not end in a slash, and the root. *)
Section Two.
Variable P : PathLib.
Variable p0 : string.
Hypothesis Hp0 : ends_in_slash p0 = false.

Lemma registered_two path :
  registered [p0; "/"] path = String.eqb path p0 || String.eqb path "/".
Proof. unfold registered. simpl. by rewrite orb_false_r. Qed.

Lemma shouldRedirect_two path : shouldRedirect [p0; "/"] path = false.
Proof.
  unfold shouldRedirect. rewrite !registered_two.
  destruct (String.eqb path p0 || String.eqb path "/"); [done|].
  destruct (String.eqb_spec path EmptyString) as [->|Hne]; [done|].
  destruct (String.eqb_spec (path +:+ "/") p0) as [E|_];
    [by apply append_slash_ne in E|].
  destruct (String.eqb_spec (path +:+ "/") "/") as [E|_];
    [by apply append_slash_root in E|].
  done.
Qed.

Lemma handler_two path :
  handler [p0; "/"] path
  = if String.eqb path p0 then Matched p0
    else if String.prefix "/" path then Matched "/" else NotFound.
Proof.
  unfold handler. rewrite registered_two.
  destruct (String.eqb_spec path p0) as [->|Hne]; [done|].
  destruct (String.eqb_spec path "/") as [->|Hne']; [done|].
  unfold match_es. cbn [fold_left]. rewrite Hp0.
  cbn [andb ends_in_slash longer]. change (Ascii.eqb "/" "/") with true.
  cbn [andb orb]. rewrite andb_true_r.
  by destruct (String.prefix "/" path).
Qed.

Lemma ServeHTTP_two r :
  ServeHTTP P [p0; "/"] r
  = if String.eqb (RequestURI r) "*" then BadRequest
    else if negb (String.eqb (Method r) "CONNECT")
            && negb (String.eqb (cleanPath P (URL_Path r)) (URL_Path r))
    then Moved (cleanPath P (URL_Path r))
    else if String.eqb (URL_Path r) p0 then Matched p0
    else if String.prefix "/" (URL_Path r) then Matched "/" else NotFound.
Proof.
  unfold ServeHTTP, Handler. rewrite !shouldRedirect_two, handler_two.
  destruct (String.eqb (RequestURI r) "*"); [done|].
  destruct (String.eqb (Method r) "CONNECT"); simpl; [done|].
  by destruct (String.eqb (cleanPath P (URL_Path r)) (URL_Path r)).
Qed.

End Two.

(** A registered path that is in cleaned form is matched by its own
    pattern. *)
Lemma ServeHTTP_registered P patterns r :
  RequestURI r <> "*" ->
  Method r = "CONNECT" \/ cleanPath P (URL_Path r) = URL_Path r ->
  registered patterns (URL_Path r) = true ->
  ServeHTTP P patterns r = Matched (URL_Path r).
Proof.
  intros Hu Hc Hr. unfold ServeHTTP, Handler.
  apply String.eqb_neq in Hu. rewrite Hu.
  assert (shouldRedirect patterns (URL_Path r) = false) as Hs
    by (unfold shouldRedirect; by rewrite Hr).
  assert (handler patterns (URL_Path r) = Matched (URL_Path r)) as Hh
    by (unfold handler; by rewrite Hr).
  destruct (String.eqb_spec (Method r) "CONNECT") as [Hm|Hm].
  - by rewrite Hs.
  - destruct Hc as [Hc|Hc]; [done|]. cbn zeta. rewrite Hc, Hs, String.eqb_refl.
    exact Hh.
Qed.

End MuxFacts.

Module WorkerFacts.
Import HttpHeader Http Worker.

(** Case analysis along the branches of a handler. *)
Ltac handle_cases :=
  repeat match goal with
         | |- context [if ?b then _ else _] => destruct b
         | |- context [match ?o with Some _ => _ | None => _ end] => destruct o
         end.

Section Handle.
Variable enableDetection : bool.
Implicit Types (requestCounts : gmap string Z) (r : Request) (w : World).

Lemma handle_counts requestCounts r w :
  counts_of (handle enableDetection requestCounts r w)
  = <[RemoteAddr r := new_count requestCounts r]> requestCounts.
Proof.
  unfold handle, new_count.
  handle_cases; reflexivity.
Qed.

Lemma handle_limited requestCounts r w :
  500 < new_count requestCounts r ->
  handle enableDetection requestCounts r w
  = (<[RemoteAddr r := new_count requestCounts r]> requestCounts,
     "429", Error "Too Many Requests" 429).
Proof.
  intros H. unfold handle. fold (new_count requestCounts r).
  apply Z.ltb_lt in H. by rewrite H.
Qed.

Lemma handle_shed requestCounts r w activeProxy :
  new_count requestCounts r <= 500 ->
  store_active_proxy w = Some activeProxy ->
  "https://" +:+ Host r <> activeProxy ->
  handle enableDetection requestCounts r w
  = (<[RemoteAddr r := new_count requestCounts r]> requestCounts,
     "302", Redirect (activeProxy +:+ RequestURI r) 302).
Proof.
  intros Hn Hs Hne. unfold handle. fold (new_count requestCounts r).
  apply Z.ltb_ge in Hn. rewrite Hn, Hs.
  apply String.eqb_neq in Hne. by rewrite Hne.
Qed.

Lemma handle_store_down requestCounts r w :
  new_count requestCounts r <= 500 ->
  store_active_proxy w = None ->
  handle enableDetection requestCounts r w
  = (<[RemoteAddr r := new_count requestCounts r]> requestCounts,
     "500", Error "Internal Server Error" 500).
Proof.
  intros Hn Hs. unfold handle. fold (new_count requestCounts r).
  apply Z.ltb_ge in Hn. by rewrite Hn, Hs.
Qed.

Lemma handle_admitted_not_429 requestCounts r w :
  new_count requestCounts r <= 500 ->
  reply_of (handle enableDetection requestCounts r w)
  <> Error "Too Many Requests" 429.
Proof.
  intros Hn. unfold handle. fold (new_count requestCounts r).
  apply Z.ltb_ge in Hn. rewrite Hn.
  handle_cases; discriminate.
Qed.

End Handle.

Section Routes.
Variable P : Mux.PathLib.
Variable enableDetection : bool.
Implicit Types (requestCounts : gmap string Z) (r : Request) (w : World).

Lemma ServeHTTP_patterns r :
  Mux.ServeHTTP P patterns r
  = if String.eqb (RequestURI r) "*" then Mux.BadRequest
    else if negb (String.eqb (Method r) "CONNECT")
            && negb (String.eqb (Mux.cleanPath P (URL_Path r)) (URL_Path r))
    then Mux.Moved (Mux.cleanPath P (URL_Path r))
    else if String.eqb (URL_Path r) "/health" then Mux.Matched "/health"
    else if String.prefix "/" (URL_Path r) then Mux.Matched "/" else Mux.NotFound.
Proof. by apply MuxFacts.ServeHTTP_two. Qed.

(** The requests the mux hands to the handler on "/". *)
Lemma to_handler_iff r :
  to_handler P r = true
  <-> RequestURI r <> "*" /\
      (Method r = "CONNECT" \/ Mux.cleanPath P (URL_Path r) = URL_Path r) /\
      URL_Path r <> "/health" /\
      String.prefix "/" (URL_Path r) = true.
Proof.
  unfold to_handler. rewrite ServeHTTP_patterns.
  destruct (String.eqb_spec (RequestURI r) "*") as [Hu|Hu];
    [split; [discriminate|]; by intros [? _]|].
  destruct (String.eqb_spec (Method r) "CONNECT") as [Hm|Hm];
    destruct (String.eqb_spec (Mux.cleanPath P (URL_Path r)) (URL_Path r)) as [Hc|Hc];
    cbn [negb andb];
    try (split; [discriminate|]; intros (_ & [?|?] & _); done);
    (destruct (String.eqb_spec (URL_Path r) "/health") as [Hh|Hh];
       [split; [discriminate|]; by intros (_ & _ & ? & _)|]);
    (destruct (String.prefix "/" (URL_Path r)) eqn:Hp;
       [split; [intros _|reflexivity]; repeat split; auto
       |split; [discriminate|]; by intros (_ & _ & _ & ?)]).
Qed.

Lemma mux_handled requestCounts r w :
  to_handler P r = true ->
  mux P enableDetection requestCounts r w
  = (counts_of (handle enableDetection requestCounts r w),
     Handled (status_of (handle enableDetection requestCounts r w))
       (reply_of (handle enableDetection requestCounts r w))).
Proof.
  unfold to_handler, mux.
  destruct (Mux.ServeHTTP P patterns r); try discriminate. by intros ->.
Qed.

Lemma mux_elsewhere requestCounts r w :
  to_handler P r = false ->
  (mux P enableDetection requestCounts r w).1 = requestCounts /\
  forall status reply,
    (mux P enableDetection requestCounts r w).2 <> Handled status reply.
Proof.
  unfold to_handler, mux.
  destruct (Mux.ServeHTTP P patterns r); intros H; rewrite ?H;
    (split; [reflexivity|intros; discriminate]).
Qed.

End Routes.

(** C1, as the code has it.  A request that the worker's mux hands to the
    handler registered on "/" and whose per-client counter does not exceed
    500, while the store's active_proxy differs from "https://" followed by
    the request's Host, is answered by a 302 redirect to the active_proxy
    value followed by the request's RequestURI, recorded as 302 in the
    metrics; it is not forwarded upstream. *)
Theorem shed_redirect (P : Mux.PathLib) enableDetection
    (requestCounts : gmap string Z) r w activeProxy :
  to_handler P r = true ->
  new_count requestCounts r <= 500 ->
  store_active_proxy w = Some activeProxy ->
  "https://" +:+ Host r <> activeProxy ->
  let x := mux P enableDetection requestCounts r w in
  x.2 = Handled "302" (Redirect (activeProxy +:+ RequestURI r) 302) /\
  (forall status body, x.2 <> Handled status (Proxied body)).
Proof.
  intros Hr Hn Hs Hne x. subst x.
  rewrite mux_handled by assumption.
  rewrite (handle_shed _ _ _ _ activeProxy) by assumption.
  split; [reflexivity|]. intros; discriminate.
Qed.

(** Scenario S1: GET https://host:8082/x while 8081 is active. *)
Lemma shed_redirect_witness :
  (mux Instances.SimplePath false ∅ Examples.req_8082
     (Examples.world Examples.active_8081 None)).2
  = Handled "302" (Redirect "https://host:8081/x" 302).
Proof.
  refine (proj1 (shed_redirect Instances.SimplePath false ∅ Examples.req_8082
                   (Examples.world Examples.active_8081 None)
                   "https://host:8081" _ _ _ _)).
  - vm_compute. reflexivity.
  - vm_compute. discriminate.
  - reflexivity.
  - discriminate.
Defined.

(** C1 as stated fails: the 501st request of a client to a worker that is
    not the active one is answered 429, not 302. *)
Lemma shed_redirect_not_for_every_request :
  Worker.store_active_proxy (Examples.world Examples.active_8081 None)
    = Some "https://host:8081" /\
  "https://" +:+ Host Examples.req_8082 <> "https://host:8081" /\
  reply_of (handle false Examples.counts_500 Examples.req_8082
              (Examples.world Examples.active_8081 None))
  = Error "Too Many Requests" 429 /\
  reply_of (handle false Examples.counts_500 Examples.req_8082
              (Examples.world Examples.active_8081 None))
  <> Redirect "https://host:8081/x" 302.
Proof.
  split; [reflexivity|]. split; [discriminate|]. split; [reflexivity|].
  discriminate.
Qed.

(** The counter of the handler, per r.RemoteAddr: the first request of an
    address sets it to 1 and every later one increments it by 1 (in Go's
    int arithmetic, which is the successor below the largest int);
    whenever the counter then exceeds 500 the handler answers 429 and does
    not forward the request upstream. *)
Lemma handle_rate_counter enableDetection (requestCounts : gmap string Z) r w :
  let x := handle enableDetection requestCounts r w in
  let ip := RemoteAddr r in
  (requestCounts !! ip = None -> counts_of x !! ip = Some 1) /\
  (forall n, requestCounts !! ip = Some n ->
     counts_of x !! ip = Some (GoInt.incr n) /\
     (GoInt.in_range n -> n < GoInt.max_int -> counts_of x !! ip = Some (n + 1))) /\
  (forall n, counts_of x !! ip = Some n -> 500 < n ->
     reply_of x = Error "Too Many Requests" 429 /\
     status_of x = "429" /\
     forwarded (reply_of x) = false).
Proof.
  intros x ip. subst x ip.
  split; [|split].
  - intros H. rewrite handle_counts, lookup_insert_eq.
    unfold new_count. by rewrite H.
  - intros n H. rewrite handle_counts, lookup_insert_eq.
    unfold new_count. rewrite H. simpl. split; [reflexivity|].
    intros Hr Hlt. by rewrite GoIntFacts.incr_exact.
  - intros n H Hn.
    rewrite handle_counts, lookup_insert_eq in H. injection H as <-.
    rewrite handle_limited by assumption. repeat split.
Qed.

(** C3 on the code.  The counter is kept per r.RemoteAddr, the peer's
    IP and port, not per source IP: a request handed to the handler from an
    address (IP and port) that has sent nothing yet is counted as the
    first (the counter of the address is set to 1) and is not answered
    429, however many requests are counted for another port of the same
    IP, whose counter it leaves as it is; on the active worker, without
    detection, it is forwarded. *)
Theorem rate_counter_per_port (P : Mux.PathLib) enableDetection
    (requestCounts : gmap string Z) r w ip port port' n :
  to_handler P r = true ->
  RemoteAddr r = ip +:+ ":" +:+ port ->
  requestCounts !! (ip +:+ ":" +:+ port) = None ->
  requestCounts !! (ip +:+ ":" +:+ port') = Some n ->
  let x := mux P enableDetection requestCounts r w in
  x.1 !! (ip +:+ ":" +:+ port) = Some 1 /\
  x.1 !! (ip +:+ ":" +:+ port') = Some n /\
  (forall status, x.2 <> Handled status (Error "Too Many Requests" 429)) /\
  (forall body,
     enableDetection = false ->
     store_active_proxy w = Some ("https://" +:+ Host r) ->
     read_body w = Some body ->
     x.2 = Handled "200" (Proxied body)).
Proof.
  intros Hr Ha Hnone Hsome x. subst x.
  rewrite mux_handled by assumption. cbn [fst snd].
  assert (new_count requestCounts r = 1) as Hn.
  { unfold new_count. rewrite Ha, Hnone. reflexivity. }
  assert (ip +:+ ":" +:+ port <> ip +:+ ":" +:+ port') as Hne by congruence.
  rewrite handle_counts, Hn, Ha.
  split; [|split; [|split]].
  - by rewrite lookup_insert_eq.
  - by rewrite lookup_insert_ne.
  - intros status H. injection H as _ H. revert H.
    apply handle_admitted_not_429. rewrite Hn. lia.
  - intros body -> Hs Hb. unfold handle. fold (new_count requestCounts r).
    rewrite Hn. change (500 <? 1)%Z with false. cbn iota.
    by rewrite Hs, String.eqb_refl, Hb.
Qed.

(** After 500 requests from 10.0.0.5 port 40000, a request from port 40001
    of the same IP to the active worker is counted 1 and forwarded. *)
Lemma rate_counter_per_port_witness :
  (mux Instances.SimplePath false Examples.counts_500
     Examples.req_8081_port_40001
     (Examples.world Examples.active_8081 None)).1 !! "10.0.0.5:40001" = Some 1 /\
  (mux Instances.SimplePath false Examples.counts_500
     Examples.req_8081_port_40001
     (Examples.world Examples.active_8081 None)).2
  = Handled "200" (Proxied Examples.login_body).
Proof.
  assert (Hr : to_handler Instances.SimplePath Examples.req_8081_port_40001 = true)
    by (vm_compute; reflexivity).
  assert (Hs : Examples.counts_500 !! ("10.0.0.5" +:+ ":" +:+ "40000") = Some 500)
    by (vm_compute; reflexivity).
  assert (Hn : Examples.counts_500 !! ("10.0.0.5" +:+ ":" +:+ "40001") = None)
    by (vm_compute; reflexivity).
  destruct (rate_counter_per_port Instances.SimplePath false Examples.counts_500
              Examples.req_8081_port_40001
              (Examples.world Examples.active_8081 None)
              "10.0.0.5" "40001" "40000" 500 Hr eq_refl Hn Hs)
    as (H1 & _ & _ & H4).
  split; [exact H1|]. apply H4; reflexivity.
Defined.

(** The counters are kept per remote address, the string r.RemoteAddr that
    the handler names ip: a request changes the counter of its own address
    and of no other, be it another port of the same host. *)
Theorem other_addresses_untouched enableDetection
    (requestCounts : gmap string Z) r w addr :
  RemoteAddr r <> addr ->
  counts_of (handle enableDetection requestCounts r w) !! addr
  = requestCounts !! addr.
Proof.
  intros Hne. rewrite handle_counts. by rewrite lookup_insert_ne.
Qed.

(** A request from 10.0.0.5 port 40000 leaves no trace under port 40001. *)
Lemma other_addresses_untouched_witness :
  counts_of (handle false ∅ Examples.req_8081
               (Examples.world Examples.active_8081 None))
    !! "10.0.0.5:40001" = None.
Proof.
  refine (other_addresses_untouched false ∅ Examples.req_8081
            (Examples.world Examples.active_8081 None) "10.0.0.5:40001" _).
  discriminate.
Defined.

(** C10.  The rate-limit check runs before the active-proxy confirmation:
    a request whose counter exceeds 500 is answered 429 whatever the store
    and the rest of the world say, also on a worker that is not the active
    one, where a request under the limit is shed by a 302 redirect. *)
Theorem rate_limit_before_shedding enableDetection
    (requestCounts : gmap string Z) r w :
  500 < new_count requestCounts r ->
  let x := handle enableDetection requestCounts r w in
  reply_of x = Error "Too Many Requests" 429 /\
  status_of x = "429" /\
  (forall activeProxy,
     store_active_proxy w = Some activeProxy ->
     "https://" +:+ Host r <> activeProxy ->
     reply_of x <> Redirect (activeProxy +:+ RequestURI r) 302) /\
  (forall w', handle enableDetection requestCounts r w' = x).
Proof.
  intros Hn x. subst x. rewrite handle_limited by assumption.
  repeat split.
  - intros; discriminate.
  - intros w'. by rewrite handle_limited.
Qed.

(** The 501st request of a client to the worker on 8082 while 8081 is the
    active one. *)
Lemma rate_limit_before_shedding_witness :
  reply_of (handle true Examples.counts_500 Examples.req_8082
              (Examples.world Examples.active_8081 None))
  = Error "Too Many Requests" 429.
Proof.
  refine (proj1 (rate_limit_before_shedding true Examples.counts_500
                   Examples.req_8082
                   (Examples.world Examples.active_8081 None) _)).
  reflexivity.
Defined.

Section Malicious.
Variable G : GzipLib.

Lemma handle_malicious (requestCounts : gmap string Z) r w bodyBytes
    detectionResponse :
  new_count requestCounts r <= 500 ->
  store_active_proxy w = Some ("https://" +:+ Host r) ->
  read_body w = Some bodyBytes ->
  detector w (RequestURI r) (string_of_bytes bodyBytes) = Some detectionResponse ->
  detectionResponse !! "authorized" = Some (AString "MALICIOUS") ->
  handle true requestCounts r w
  = (<[RemoteAddr r := new_count requestCounts r]> requestCounts,
     match file_403 w with Some _ => "403" | None => "500" end,
     match file_403 w with
     | Some htmlContent => Page "text/html" 403 htmlContent
     | None => Error "Failed to load 403 page" 500
     end).
Proof.
  intros Hn Hs Hb Hd Ha. unfold handle. fold (new_count requestCounts r).
  apply Z.ltb_ge in Hn. rewrite Hn, Hs, String.eqb_refl. simpl.
  rewrite Hb, Hd, Ha. simpl.
  destruct (file_403 w); reflexivity.
Qed.

(** What the client receives for the 403 page, behind gzipMiddleware. *)
Lemma page_on_the_wire r contentType code content :
  exists wr,
    gzipMiddleware G (write_page contentType code content) r ∅ = Some wr /\
    w_status wr = code /\
    Get (w_header wr) "Content-Type" = contentType /\
    if acceptsGzip r
    then w_body wr = gzip G content /\ Get (w_header wr) "Content-Encoding" = "gzip"
    else w_body wr = content.
Proof.
  unfold gzipMiddleware, write_page.
  destruct (acceptsGzip r); simpl; eexists; (split; [reflexivity|]); simpl.
  - split; [reflexivity|]. split; [apply HeaderFacts.Get_Set_eq|].
    split; [reflexivity|].
    rewrite HeaderFacts.Get_Set_ne by (vm_compute; discriminate).
    apply HeaderFacts.Get_Set_eq.
  - split; [reflexivity|]. split; [apply HeaderFacts.Get_Set_eq|reflexivity].
Qed.

End Malicious.

(** C4, as the code has it.  For a request the detection service
    classifies MALICIOUS, the worker answers with status 403, Content-Type
    text/html and the contents of 403.html as the body when that file can
    be read (behind gzipMiddleware the body is sent gzip-encoded, under
    Content-Encoding: gzip, when the request advertises gzip); when the file
    cannot be read it answers 500.  The request is not forwarded. *)
Theorem malicious_page (G : GzipLib) (requestCounts : gmap string Z) r w
    bodyBytes detectionResponse :
  new_count requestCounts r <= 500 ->
  store_active_proxy w = Some ("https://" +:+ Host r) ->
  read_body w = Some bodyBytes ->
  detector w (RequestURI r) (string_of_bytes bodyBytes) = Some detectionResponse ->
  detectionResponse !! "authorized" = Some (AString "MALICIOUS") ->
  let x := handle true requestCounts r w in
  forwarded (reply_of x) = false /\
  match file_403 w with
  | Some htmlContent =>
      reply_of x = Page "text/html" 403 htmlContent /\
      status_of x = "403" /\
      exists wr,
        gzipMiddleware G (write_page "text/html" 403 htmlContent) r ∅ = Some wr /\
        w_status wr = 403 /\
        Get (w_header wr) "Content-Type" = "text/html" /\
        if acceptsGzip r
        then w_body wr = gzip G htmlContent /\
             Get (w_header wr) "Content-Encoding" = "gzip"
        else w_body wr = htmlContent
  | None =>
      reply_of x = Error "Failed to load 403 page" 500 /\ status_of x = "500"
  end.
Proof.
  intros Hn Hs Hb Hd Ha x. subst x.
  rewrite (handle_malicious _ _ _ bodyBytes detectionResponse) by assumption.
  unfold reply_of, status_of. simpl.
  destruct (file_403 w) as [htmlContent|]; simpl.
  - split; [reflexivity|]. split; [reflexivity|]. split; [reflexivity|].
    apply page_on_the_wire.
  - repeat split.
Qed.

(** Scenario S2: POST /login with an injection in the body, 403.html
    present. *)
Lemma malicious_page_witness :
  reply_of (handle true ∅ (Examples.req_login ∅)
              (Examples.world Examples.active_8081 (Some Examples.page_403)))
  = Page "text/html" 403 Examples.page_403.
Proof.
  refine (proj1 (proj2 (malicious_page Instances.FramingGzip ∅
                   (Examples.req_login ∅)
                   (Examples.world Examples.active_8081 (Some Examples.page_403))
                   Examples.login_body
                   {[ "authorized" := AString "MALICIOUS" ]} _ _ _ _ _))).
  - vm_compute. discriminate.
  - reflexivity.
  - reflexivity.
  - reflexivity.
  - reflexivity.
Defined.

(** C4 as stated fails: a request classified MALICIOUS while 403.html
    cannot be read is answered 500, not 403. *)
Lemma malicious_without_page_is_500 :
  Worker.detector (Examples.world Examples.active_8081 None) "/login"
    (string_of_bytes Examples.login_body)
    = Some {[ "authorized" := AString "MALICIOUS" ]} /\
  handle true ∅ (Examples.req_login ∅) (Examples.world Examples.active_8081 None)
  = ({[ "10.0.0.5:40000" := 1 ]}, "500", Error "Failed to load 403 page" 500).
Proof. split; reflexivity. Qed.

Lemma FramingGzip_laws : GzipLaws Instances.FramingGzip.
Proof.
  split.
  - intros b. reflexivity.
  - intros b. by exists b.
Qed.

Section Gzip.
Variable R : RegexpLib.
Variable G : GzipLib.

Lemma handle_forwarded (requestCounts : gmap string Z) r w bodyBytes :
  new_count requestCounts r <= 500 ->
  store_active_proxy w = Some ("https://" +:+ Host r) ->
  read_body w = Some bodyBytes ->
  handle false requestCounts r w
  = (<[RemoteAddr r := new_count requestCounts r]> requestCounts,
     "200", Proxied bodyBytes).
Proof.
  intros Hn Hs Hb. unfold handle. fold (new_count requestCounts r).
  apply Z.ltb_ge in Hn. rewrite Hn, Hs, String.eqb_refl. simpl.
  by rewrite Hb.
Qed.

(** With no header rule, a response to a request that advertises gzip
    reaches the client encoded by ModifyResponse and again by
    gzipMiddleware, under two Content-Encoding: gzip occurrences. *)
Lemma proxied_on_the_wire_gzip w r bodyBytes resp :
  acceptsGzip r = true ->
  backend w bodyBytes = Some resp ->
  exists wr,
    gzipMiddleware G (ReverseProxy_ServeHTTP R G [] w r bodyBytes) r ∅ = Some wr /\
    w_status wr = StatusCode resp /\
    w_body wr = gzip G (gzip G (RespBody resp)) /\
    Values (w_header wr) "Content-Encoding" = ["gzip"; "gzip"].
Proof.
  intros Ha Hb.
  unfold gzipMiddleware, ReverseProxy_ServeHTTP, ModifyResponse.
  rewrite Ha, Hb. simpl. eexists. split; [reflexivity|]. simpl.
  split; [reflexivity|]. split; [reflexivity|].
  rewrite HeaderFacts.Values_copyHeader, HeaderFacts.Values_Set_eq.
  rewrite HeaderFacts.Values_Del_ne by (vm_compute; discriminate).
  by rewrite HeaderFacts.Values_Set_eq.
Qed.

(** Without Accept-Encoding: gzip nothing is encoded. *)
Lemma proxied_on_the_wire_plain w r bodyBytes resp :
  acceptsGzip r = false ->
  backend w bodyBytes = Some resp ->
  exists wr,
    gzipMiddleware G (ReverseProxy_ServeHTTP R G [] w r bodyBytes) r ∅ = Some wr /\
    w_status wr = StatusCode resp /\
    w_body wr = RespBody resp.
Proof.
  intros Ha Hb.
  unfold gzipMiddleware, ReverseProxy_ServeHTTP, ModifyResponse.
  rewrite Ha, Hb. simpl. eexists. split; [reflexivity|]. by simpl.
Qed.

End Gzip.

(** A request that does not advertise gzip, with no header rule, on the
    active worker and without detection: the body handed to the reverse
    proxy is the client's, and the client receives the backend's status and
    body as they are. *)
Theorem plain_round_trip (R : RegexpLib) (G : GzipLib)
    (requestCounts : gmap string Z) r w bodyBytes resp :
  new_count requestCounts r <= 500 ->
  store_active_proxy w = Some ("https://" +:+ Host r) ->
  read_body w = Some bodyBytes ->
  acceptsGzip r = false ->
  backend w bodyBytes = Some resp ->
  reply_of (handle false requestCounts r w) = Proxied bodyBytes /\
  exists wr,
    gzipMiddleware G (ReverseProxy_ServeHTTP R G [] w r bodyBytes) r ∅ = Some wr /\
    w_status wr = StatusCode resp /\
    w_body wr = RespBody resp.
Proof.
  intros Hn Hs Hb Ha Hbk. split.
  - by rewrite (handle_forwarded _ _ _ bodyBytes).
  - by apply proxied_on_the_wire_plain.
Qed.

(** The POST of scenario S2 without Accept-Encoding, detection off. *)
Lemma plain_round_trip_witness :
  reply_of (handle false ∅ (Examples.req_login ∅)
              (Examples.world Examples.active_8081 None))
    = Proxied Examples.login_body /\
  exists wr,
    gzipMiddleware Instances.FramingGzip
      (ReverseProxy_ServeHTTP Instances.LiteralRegexp Instances.FramingGzip []
         (Examples.world Examples.active_8081 None) (Examples.req_login ∅)
         Examples.login_body)
      (Examples.req_login ∅) ∅ = Some wr /\
    w_status wr = 200 /\
    w_body wr = Examples.hello.
Proof.
  refine (plain_round_trip Instances.LiteralRegexp Instances.FramingGzip ∅
            (Examples.req_login ∅) (Examples.world Examples.active_8081 None)
            Examples.login_body
            {| StatusCode := 200;
               RespHeader := Set_ ∅ "Content-Type" "text/plain";
               RespBody := Examples.hello |} _ eq_refl eq_refl eq_refl eq_refl).
  vm_compute. discriminate.
Defined.

(** C5 on the code.  For a request advertising Accept-Encoding: gzip, with
    no header rule, on the active worker and without detection, the body
    handed to the reverse proxy is the client's; the body reaching the
    client is the backend's body gzip-encoded twice.  One decoding yields
    the gzip encoding of the backend's body, which differs from that body
    whenever the body does not itself begin with the gzip magic number. *)
Theorem gzip_encoded_twice (R : RegexpLib) (G : GzipLib)
    (requestCounts : gmap string Z) r w bodyBytes resp :
  GzipLaws G ->
  new_count requestCounts r <= 500 ->
  store_active_proxy w = Some ("https://" +:+ Host r) ->
  read_body w = Some bodyBytes ->
  acceptsGzip r = true ->
  backend w bodyBytes = Some resp ->
  reply_of (handle false requestCounts r w) = Proxied bodyBytes /\
  exists wr,
    gzipMiddleware G (ReverseProxy_ServeHTTP R G [] w r bodyBytes) r ∅ = Some wr /\
    w_body wr = gzip G (gzip G (RespBody resp)) /\
    Values (w_header wr) "Content-Encoding" = ["gzip"; "gzip"] /\
    gunzip G (w_body wr) = Some (gzip G (RespBody resp)) /\
    ((forall t, RespBody resp <> Byte.x1f :: Byte.x8b :: t) ->
     gunzip G (w_body wr) <> Some (RespBody resp)).
Proof.
  intros L Hn Hs Hb Ha Hbk. split.
  - by rewrite (handle_forwarded _ _ _ bodyBytes).
  - destruct (proxied_on_the_wire_gzip R G w r bodyBytes resp Ha Hbk)
      as (wr & Hw & _ & Hbody & Hce).
    exists wr. split; [exact Hw|]. split; [exact Hbody|]. split; [exact Hce|].
    rewrite Hbody, (gunzip_gzip G L). split; [reflexivity|].
    intros Hmagic E. injection E as E.
    destruct (gzip_magic G L (RespBody resp)) as [t Ht].
    apply (Hmagic t). congruence.
Qed.

(** A backend answering "hello" to a request that advertises gzip: one
    decoding of what the client receives gives the encoded "hello". *)
Lemma gzip_encoded_twice_witness :
  exists wr,
    gzipMiddleware Instances.FramingGzip
      (ReverseProxy_ServeHTTP Instances.LiteralRegexp Instances.FramingGzip []
         (Examples.world Examples.active_8081 None)
         (Examples.req_login Examples.gzip_header) Examples.login_body)
      (Examples.req_login Examples.gzip_header) ∅ = Some wr /\
    gunzip Instances.FramingGzip (w_body wr)
      = Some (gzip Instances.FramingGzip Examples.hello) /\
    gunzip Instances.FramingGzip (w_body wr) <> Some Examples.hello.
Proof.
  destruct (gzip_encoded_twice Instances.LiteralRegexp Instances.FramingGzip ∅
              (Examples.req_login Examples.gzip_header)
              (Examples.world Examples.active_8081 None)
              Examples.login_body
              {| StatusCode := 200;
                 RespHeader := Set_ ∅ "Content-Type" "text/plain";
                 RespBody := Examples.hello |}
              FramingGzip_laws) as (_ & wr & Hw & _ & _ & Hd & Hne).
  - vm_compute. discriminate.
  - reflexivity.
  - reflexivity.
  - reflexivity.
  - reflexivity.
  - exists wr. split; [exact Hw|]. split; [exact Hd|].
    apply Hne. intros t. discriminate.
Defined.

Section Lifetime.
Variable P : Mux.PathLib.
Variable enableDetection : bool.
Implicit Types (requestCounts : gmap string Z) (rs : list (Request * World)).

Lemma count_mux requestCounts r w ip :
  count (mux P enableDetection requestCounts r w).1 ip
  = if String.eqb (RemoteAddr r) ip && to_handler P r
    then GoInt.incr (count requestCounts ip)
    else count requestCounts ip.
Proof.
  destruct (to_handler P r) eqn:Hr.
  - rewrite mux_handled by assumption. cbn [fst]. rewrite andb_true_r.
    rewrite handle_counts. unfold count, new_count.
    destruct (String.eqb_spec (RemoteAddr r) ip) as [->|Hne].
    + by rewrite lookup_insert_eq.
    + by rewrite lookup_insert_ne.
  - rewrite andb_false_r.
    by rewrite (proj1 (mux_elsewhere P enableDetection requestCounts r w Hr)).
Qed.

Lemma count_handle requestCounts r w ip :
  count (counts_of (handle enableDetection requestCounts r w)) ip
  = if String.eqb (RemoteAddr r) ip
    then GoInt.incr (count requestCounts ip)
    else count requestCounts ip.
Proof.
  rewrite handle_counts. unfold count, new_count.
  destruct (String.eqb_spec (RemoteAddr r) ip) as [->|Hne].
  - by rewrite lookup_insert_eq.
  - by rewrite lookup_insert_ne.
Qed.

(** Over a run of the worker the counter of an address grows by the number
    of its requests, as long as the int does not overflow. *)
Lemma seen_le_length ip rs : (seen P ip rs <= length rs)%nat.
Proof.
  induction rs as [|[r w] rest IH]; simpl; [lia|].
  destruct (String.eqb (RemoteAddr r) ip && to_handler P r); lia.
Qed.

Lemma count_serve rs requestCounts ip :
  0 <= count requestCounts ip ->
  count requestCounts ip + Z.of_nat (length rs) <= GoInt.max_int ->
  count (serve P enableDetection requestCounts rs).1 ip
  = count requestCounts ip + Z.of_nat (seen P ip rs).
Proof.
  revert requestCounts.
  induction rs as [|[r w] rest IH]; intros requestCounts H0 Hmax.
  - simpl. lia.
  - cbn [serve fst seen]. cbn [length] in Hmax.
    pose proof (count_mux requestCounts r w ip) as Hc.
    destruct (String.eqb (RemoteAddr r) ip && to_handler P r) eqn:E.
    + rewrite GoIntFacts.incr_exact in Hc.
      * rewrite IH; rewrite Hc; lia.
      * unfold GoInt.in_range, GoInt.min_int, GoInt.max_int in *.
        change (2 ^ 63) with 9223372036854775808 in *. lia.
      * lia.
    + rewrite IH; rewrite Hc; lia.
Qed.

End Lifetime.

(** Spec property 5 and scenario S4, on the code: in the lifetime of a
    worker, starting from empty counters, a request handed to the handler
    on "/" is answered 429 exactly when N >= 500 of the requests served
    before had its RemoteAddr and were handed to that handler, whatever
    else the worker served in between (health checks and the other
    requests the mux answers are not counted) and whether or not it is the
    active one. *)
Theorem nth_request_limited (P : Mux.PathLib) enableDetection pre r w :
  Z.of_nat (length pre) < GoInt.max_int ->
  to_handler P r = true ->
  (mux P enableDetection (serve P enableDetection ∅ pre).1 r w).2
    = Handled "429" (Error "Too Many Requests" 429)
  <-> (500 <= seen P (RemoteAddr r) pre)%nat.
Proof.
  intros Hlen Hr.
  pose proof (count_serve P enableDetection pre ∅ (RemoteAddr r)) as Hc.
  assert (count ∅ (RemoteAddr r) = 0) as H0 by reflexivity.
  rewrite H0 in Hc. specialize (Hc ltac:(lia) ltac:(lia)).
  assert (Z.of_nat (seen P (RemoteAddr r) pre) <= Z.of_nat (length pre)) as Hle.
  { apply inj_le, seen_le_length. }
  assert (new_count (serve P enableDetection ∅ pre).1 r
          = Z.of_nat (seen P (RemoteAddr r) pre) + 1) as Hn.
  { unfold new_count.
    fold (count (serve P enableDetection ∅ pre).1 (RemoteAddr r)).
    rewrite Hc. apply GoIntFacts.incr_exact; [|lia].
    unfold GoInt.in_range, GoInt.min_int, GoInt.max_int in *.
    change (2 ^ 63) with 9223372036854775808 in *. lia. }
  rewrite mux_handled by assumption. cbn [snd].
  split.
  - intros H. injection H as _ H.
    destruct (Z_le_gt_dec (new_count (serve P enableDetection ∅ pre).1 r) 500)
      as [Hs|Hs].
    + by apply handle_admitted_not_429 in H.
    + lia.
  - intros Hs. rewrite handle_limited; [reflexivity|lia].
Qed.

(** Scenario S4 with health checks in between: after 500 requests for /x
    and 500 for /health from 10.0.0.5 port 40000 to the active worker, the
    next request for /x is answered 429. *)
Lemma nth_request_limited_witness :
  (mux Instances.SimplePath false
     (serve Instances.SimplePath false ∅
        (repeat (Examples.req_health, Examples.world Examples.active_8081 None) 500
         ++ repeat (Examples.req_8081, Examples.world Examples.active_8081 None) 500)).1
     Examples.req_8081 (Examples.world Examples.active_8081 None)).2
  = Handled "429" (Error "Too Many Requests" 429).
Proof.
  apply (proj2 (nth_request_limited Instances.SimplePath false
                  (repeat (Examples.req_health, Examples.world Examples.active_8081 None) 500
                   ++ repeat (Examples.req_8081, Examples.world Examples.active_8081 None) 500)
                  Examples.req_8081 (Examples.world Examples.active_8081 None)
                  ltac:(vm_compute; reflexivity) ltac:(vm_compute; reflexivity))).
  apply Nat.leb_le. vm_compute. reflexivity.
Defined.

(** The routes of a worker's mux.  The handler on "/" gets the requests
    whose request URI is not "*", whose path is in cleaned form (CONNECT
    requests are not cleaned), is not /health and starts with a slash.
    Every other request leaves the counters as they are and gets none of
    the handler's answers (no 429, no 302): /health in particular is
    answered by the health check, and a path that is not in cleaned form
    by the mux's redirect to the cleaned one. *)
Theorem worker_mux_routes (P : Mux.PathLib) enableDetection
    (requestCounts : gmap string Z) r w :
  let x := mux P enableDetection requestCounts r w in
  (to_handler P r = true
   <-> RequestURI r <> "*" /\
       (Method r = "CONNECT" \/ Mux.cleanPath P (URL_Path r) = URL_Path r) /\
       URL_Path r <> "/health" /\
       String.prefix "/" (URL_Path r) = true) /\
  (to_handler P r = false ->
   x.1 = requestCounts /\ forall status reply, x.2 <> Handled status reply) /\
  (RequestURI r <> "*" ->
   Method r = "CONNECT" \/ Mux.cleanPath P (URL_Path r) = URL_Path r ->
   URL_Path r = "/health" ->
   x = (requestCounts, Health)) /\
  (RequestURI r <> "*" ->
   Method r <> "CONNECT" ->
   Mux.cleanPath P (URL_Path r) <> URL_Path r ->
   x = (requestCounts, ByMux (Mux.Moved (Mux.cleanPath P (URL_Path r))))).
Proof.
  intros x. subst x. split; [apply to_handler_iff|].
  split; [apply mux_elsewhere|]. split.
  - intros Hu Hc Hh. unfold mux. rewrite ServeHTTP_patterns.
    apply String.eqb_neq in Hu. rewrite Hu, Hh.
    destruct Hc as [Hc|Hc].
    + by rewrite Hc.
    + rewrite Hh in Hc. rewrite Hc, String.eqb_refl, andb_false_r. reflexivity.
  - intros Hu Hm Hc. unfold mux. rewrite ServeHTTP_patterns.
    apply String.eqb_neq in Hu, Hm, Hc. by rewrite Hu, Hm, Hc.
Qed.

(** A health check from an address whose counter stands at 500, while the
    store is down: answered by the health check, the counter unchanged. *)
Lemma worker_mux_routes_witness :
  mux Instances.SimplePath true Examples.counts_500 Examples.req_health
    (Examples.world None None)
  = (Examples.counts_500, Health).
Proof.
  refine (proj1 (proj2 (proj2 (worker_mux_routes Instances.SimplePath true
                                 Examples.counts_500 Examples.req_health
                                 (Examples.world None None)))) _ _ _).
  - discriminate.
  - right. vm_compute. reflexivity.
  - reflexivity.
Defined.

End WorkerFacts.

Module EntryFacts.
Import Http Registry Entry.

Section Rating.
Implicit Types (ratings : gmap string Z) (ip : string).

Lemma GetRating_UpdateRating ratings ip delta :
  GetRating (UpdateRating ratings ip delta) ip = GetRating ratings ip + delta.
Proof. unfold GetRating, UpdateRating. by rewrite lookup_insert_eq. Qed.

Lemma GetRating_UpdateRating_ne ratings ip ip' delta :
  ip <> ip' ->
  GetRating (UpdateRating ratings ip delta) ip' = GetRating ratings ip'.
Proof. intros H. unfold GetRating, UpdateRating. by rewrite lookup_insert_ne. Qed.

End Rating.

Section Routes.
Variable P : Mux.PathLib.
Variable U : UrlLib.

Lemma entry_mux_handled cfg apiPatterns (pm : ProxyManager U)
    (ratings : gmap string Z) r w :
  to_handler P cfg apiPatterns r = true ->
  mux U P cfg apiPatterns pm ratings r true w
  = ((handle U cfg pm ratings r w).1, ByHandler (handle U cfg pm ratings r w).2).
Proof.
  unfold to_handler, mux.
  destruct (Mux.ServeHTTP P (patterns cfg apiPatterns) r); try discriminate.
  by intros ->.
Qed.

Lemma registered_metrics cfg apiPatterns :
  Mux.registered (patterns cfg apiPatterns) "/metrics" = true.
Proof.
  unfold Mux.registered, patterns. rewrite existsb_app.
  apply orb_true_iff. by right.
Qed.

End Routes.

(** The rating step of the handler on "/".  A request that gets past the
    ACL and is no /api/ request first adds 5 to its source's rating when it
    is detected as an attack.  If the rating then exceeds maxSuspicion the
    request is refused with 403 and nothing more is added; otherwise it is
    not refused and 1 more is added. *)
Lemma handle_suspicion_rating (U : UrlLib) cfg (pm : ProxyManager U)
    (ratings : gmap string Z) r w :
  enableDetection cfg = true ->
  aclConfig_set cfg && HandleRequestWithACL w = false ->
  Strings.HasPrefix (URL_Path r) "/api/" = false ->
  let ip := RemoteAddr r in
  let x := handle U cfg pm ratings r w in
  let seen := GetRating ratings ip + (if DetectAttack w then 5 else 0) in
  if (maxSuspicion cfg <? seen)%Z
  then x.2 = Error "Forbidden" 403 /\ GetRating x.1 ip = seen
  else x.2 <> Error "Forbidden" 403 /\ GetRating x.1 ip = seen + 1.
Proof.
  intros Hd Hacl Hapi ip x seen. subst x. unfold handle.
  rewrite Hacl, Hapi, Hd. simpl. fold ip.
  assert (GetRating (if DetectAttack w then UpdateRating ratings ip 5 else ratings) ip
          = seen) as E.
  { subst seen. destruct (DetectAttack w).
    - apply GetRating_UpdateRating.
    - lia. }
  rewrite E. destruct (maxSuspicion cfg <? seen)%Z.
  - simpl. split; [reflexivity|exact E].
  - destruct (GetProxy U pm); simpl;
      (split; [discriminate|by rewrite GetRating_UpdateRating, E]).
Qed.

(** C8, as the code has it.  At the entry point with detection enabled, a
    request that main's mux hands to the handler registered on "/", that
    SessionMiddleware passes on to it, that gets past the ACL and is no
    /api/ request first adds 5 to its source's rating when it is detected
    as an attack.  If the rating then exceeds maxSuspicion the request is
    refused with 403 and nothing more is added (0 in total for a benign
    request, 5 for an attack); otherwise it is not refused and 1 more is
    added (1 in total for a benign request, 6 for an attack). *)
Theorem suspicion_rating (P : Mux.PathLib) (U : UrlLib) cfg apiPatterns
    (pm : ProxyManager U) (ratings : gmap string Z) r w :
  enableDetection cfg = true ->
  to_handler P cfg apiPatterns r = true ->
  aclConfig_set cfg && HandleRequestWithACL w = false ->
  Strings.HasPrefix (URL_Path r) "/api/" = false ->
  let ip := RemoteAddr r in
  let x := mux U P cfg apiPatterns pm ratings r true w in
  let seen := GetRating ratings ip + (if DetectAttack w then 5 else 0) in
  if (maxSuspicion cfg <? seen)%Z
  then x.2 = ByHandler (Error "Forbidden" 403) /\ GetRating x.1 ip = seen
  else x.2 <> ByHandler (Error "Forbidden" 403) /\ GetRating x.1 ip = seen + 1.
Proof.
  intros Hd Hr Hacl Hapi ip x seen. subst x.
  rewrite entry_mux_handled by assumption. cbn [fst snd].
  pose proof (handle_suspicion_rating U cfg pm ratings r w Hd Hacl Hapi) as H.
  cbn zeta in H. fold ip in H. fold seen in H.
  destruct (maxSuspicion cfg <? seen)%Z.
  - destruct H as [-> H]. by split.
  - destruct H as [H1 H2]. split; [|exact H2]. intros H. by injection H.
Qed.

(** A benign first request: the rating goes from 0 to 1 and the request is
    redirected to the active endpoint (scenario S5, status 307). *)
Lemma suspicion_rating_witness :
  (mux Instances.SimpleUrl Instances.SimplePath Examples.entry_config []
     Examples.registry_8081 ∅ Examples.req_8081 true Examples.benign).2
    <> ByHandler (Error "Forbidden" 403) /\
  GetRating
    (mux Instances.SimpleUrl Instances.SimplePath Examples.entry_config []
       Examples.registry_8081 ∅ Examples.req_8081 true Examples.benign).1
    "10.0.0.5:40000" = 1.
Proof.
  assert (Hr : to_handler Instances.SimplePath Examples.entry_config []
                 Examples.req_8081 = true) by (vm_compute; reflexivity).
  exact (suspicion_rating Instances.SimplePath Instances.SimpleUrl
           Examples.entry_config [] Examples.registry_8081 ∅ Examples.req_8081
           Examples.benign eq_refl Hr eq_refl eq_refl).
Defined.

(** C8 as stated fails: a request detected as an attack and not refused
    raises the rating by 6, not by 5. *)
Lemma attack_raises_rating_by_6 :
  Entry.DetectAttack Examples.attack = true /\
  GetRating ∅ "10.0.0.5:40000" = 0 /\
  handle Instances.SimpleUrl Examples.entry_config Examples.registry_8081 ∅
    Examples.req_8081 Examples.attack
  = ({[ "10.0.0.5:40000" := 6 ]}, Redirect "https://host:8081/x" 307).
Proof. repeat split. Qed.

(** The handler's answer to a request that is not answered by the ACL, is
    no /api/ request and is not refused for its rating. *)
Lemma handle_redirects_to_active (U : UrlLib) cfg (pm : ProxyManager U)
    (ratings : gmap string Z) r w :
  aclConfig_set cfg && HandleRequestWithACL w = false ->
  Strings.HasPrefix (URL_Path r) "/api/" = false ->
  (handle U cfg pm ratings r w).2 <> Error "Forbidden" 403 ->
  (handle U cfg pm ratings r w).2
  = match GetProxy U pm with
    | Some proxy => Redirect (url_String U proxy +:+ URL_RequestURI r) 307
    | None => Error "No active proxy available" 503
    end.
Proof.
  intros Hacl Hapi. unfold handle. rewrite Hacl, Hapi.
  destruct (enableDetection cfg && (maxSuspicion cfg <? _)%Z); simpl.
  - intros H. by destruct H.
  - intros _. by destruct (GetProxy U pm).
Qed.

(** The entry point's answer to a request that main's mux hands to the
    handler registered on "/", that SessionMiddleware passes on, that is
    not answered by the ACL, is no /api/ request and is not refused for its
    rating: a 307 redirect to the registry's current endpoint followed by
    the request URI, or 503 when the cursor is nil. *)
Theorem entry_redirects_to_active (P : Mux.PathLib) (U : UrlLib) cfg
    apiPatterns (pm : ProxyManager U) (ratings : gmap string Z) r w :
  to_handler P cfg apiPatterns r = true ->
  aclConfig_set cfg && HandleRequestWithACL w = false ->
  Strings.HasPrefix (URL_Path r) "/api/" = false ->
  let x := mux U P cfg apiPatterns pm ratings r true w in
  x.2 <> ByHandler (Error "Forbidden" 403) ->
  x.2 = ByHandler
          match GetProxy U pm with
          | Some proxy => Redirect (url_String U proxy +:+ URL_RequestURI r) 307
          | None => Error "No active proxy available" 503
          end.
Proof.
  intros Hr Hacl Hapi x. subst x.
  rewrite entry_mux_handled by assumption. cbn [snd]. intros H.
  rewrite (handle_redirects_to_active U cfg pm ratings r w Hacl Hapi);
    [reflexivity|]. intros E. apply H. by rewrite E.
Qed.

(** Scenario S5, with 8081 as the endpoint chosen by the rotation. *)
Lemma entry_redirects_to_active_witness :
  (mux Instances.SimpleUrl Instances.SimplePath Examples.plain_config []
     Examples.registry_8081 ∅ Examples.req_8081 true Examples.benign).2
  = ByHandler (Redirect "https://host:8081/x" 307).
Proof.
  assert (Hr : to_handler Instances.SimplePath Examples.plain_config []
                 Examples.req_8081 = true) by (vm_compute; reflexivity).
  refine (entry_redirects_to_active Instances.SimplePath Instances.SimpleUrl
            Examples.plain_config [] Examples.registry_8081 ∅ Examples.req_8081
            Examples.benign Hr eq_refl eq_refl _).
  vm_compute. discriminate.
Defined.

(** /metrics at the entry point.  A request for /metrics, its path in
    cleaned form, is answered by the Prometheus handler registered on
    main's mux, whatever the flags and the routes of the API: it does not
    reach the handler on "/", so it adds nothing to the rating of its
    address and is not refused, whatever that rating is. *)
Theorem metrics_are_not_rated (P : Mux.PathLib) (U : UrlLib) cfg apiPatterns
    (pm : ProxyManager U) (ratings : gmap string Z) r session w :
  RequestURI r <> "*" ->
  Method r = "CONNECT" \/ Mux.cleanPath P (URL_Path r) = URL_Path r ->
  URL_Path r = "/metrics" ->
  mux U P cfg apiPatterns pm ratings r session w = (ratings, ByMetrics).
Proof.
  intros Hu Hc Hm. unfold mux.
  rewrite (MuxFacts.ServeHTTP_registered P _ r Hu Hc)
    by (rewrite Hm; apply registered_metrics).
  by rewrite Hm.
Qed.

(** GET /metrics from an address rated 21 at the threshold 20. *)
Lemma metrics_are_not_rated_witness :
  mux Instances.SimpleUrl Instances.SimplePath Examples.entry_config []
    Examples.registry_8081 {[ "10.0.0.5:40000" := 21 ]} Examples.req_metrics
    true Examples.benign
  = ({[ "10.0.0.5:40000" := 21 ]}, ByMetrics).
Proof.
  refine (metrics_are_not_rated Instances.SimplePath Instances.SimpleUrl
            Examples.entry_config [] Examples.registry_8081
            {[ "10.0.0.5:40000" := 21 ]} Examples.req_metrics true
            Examples.benign _ _ _).
  - discriminate.
  - right. vm_compute. reflexivity.
  - reflexivity.
Defined.

End EntryFacts.

Module StoreFacts.
Import Http Registry.

Lemma ServeHTTP_store_down (U : UrlLib) (pm : ProxyManager U) r activeProxyURL :
  GetProxy U pm = Some activeProxyURL ->
  Entry.ServeHTTP U pm r None = Some (Entry.SError U "Internal Server Error" 500).
Proof. intros H. unfold Entry.ServeHTTP. by rewrite H. Qed.

(** The answers of the handler main registers on "/": apart from what the
    ACL and the API answer, a 404, 403 or 503 error or a 307 redirect.  It
    writes no 500. *)
Lemma handle_codes (U : UrlLib) cfg (pm : ProxyManager U)
    (ratings : gmap string Z) r w :
  match (Entry.handle U cfg pm ratings r w).2 with
  | Entry.Error _ code => code = 404 \/ code = 403 \/ code = 503
  | Entry.Redirect _ code => code = 307
  | Entry.ByACL | Entry.ByApiMux => True
  end.
Proof.
  unfold Entry.handle. WorkerFacts.handle_cases; simpl; auto.
Qed.




End StoreFacts.

Module RotationFacts.
Import Registry Rotation.

Section Select.
Context {A : Type}.
Implicit Types l : list A.

Lemma swap_same l i : swap l i i = l.
Proof.
  unfold swap. destruct (l !! i) as [x|] eqn:E; [|reflexivity].
  by rewrite !(list_insert_id l i x E).
Qed.

Lemma pick_other k i : i <> k -> pick k i = i.
Proof. intros H. unfold pick. by rewrite (proj2 (Nat.eqb_neq i k)). Qed.

Lemma pick_same k : pick k k = O.
Proof. unfold pick. by rewrite Nat.eqb_refl. Qed.

(** A step of [pick k] other than step [k] changes nothing. *)
Lemma pick_step_other k i l :
  S i <> k -> swap l (S i) (pick k (S i) mod S (S i))%nat = l.
Proof.
  intros H. rewrite pick_other by done.
  rewrite (Nat.mod_small (S i) (S (S i))) by lia.
  apply swap_same.
Qed.

(** Below [k] the steps of [pick k] change nothing. *)
Lemma shuffle_from_pick_below k i l :
  (i < k)%nat -> shuffle_from (pick k) i l = l.
Proof.
  revert l. induction i as [|i IH]; intros l Hi; [reflexivity|].
  cbn [shuffle_from]. rewrite pick_step_other by lia. apply IH. lia.
Qed.

Lemma shuffle_from_pick k i l :
  (0 < k <= i)%nat -> shuffle_from (pick k) i l = swap l k 0.
Proof.
  revert l. induction i as [|i IH]; intros l Hk; [lia|].
  cbn [shuffle_from].
  destruct (Nat.eq_dec (S i) k) as [E|E].
  - rewrite E, pick_same, Nat.Div0.mod_0_l.
    apply shuffle_from_pick_below. lia.
  - rewrite pick_step_other by done. apply IH. lia.
Qed.

Lemma Shuffle_pick l k x :
  l !! k = Some x -> Shuffle (pick k) (length l) l !! 0%nat = Some x.
Proof.
  intros Hk. pose proof (lookup_lt_Some _ _ _ Hk) as Hlt.
  unfold Shuffle. destruct k as [|k].
  - assert (forall i, shuffle_from (pick 0) i l = l) as E.
    { induction i as [|i IH]; [reflexivity|].
      cbn [shuffle_from]. by rewrite pick_step_other. }
    by rewrite E.
  - rewrite shuffle_from_pick by lia.
    unfold swap. rewrite Hk.
    destruct (l !! 0%nat) as [y|] eqn:H0.
    + rewrite list_lookup_insert_ne by lia.
      apply list_lookup_insert_eq. lia.
    + apply lookup_ge_None in H0. lia.
Qed.

End Select.

Section Rotation.
Variable U : UrlLib.
Implicit Types pm : ProxyManager U.

Lemma switchProxy_domain draw pm :
  domain (state_after (switchProxy U draw pm)) = domain pm.
Proof.
  unfold switchProxy. by destruct (_ !! 0%nat) as [[u|]|].
Qed.

Lemma startAutoSwitch_proxies draws pm :
  proxies (startAutoSwitch U draws pm).1.1 ≡ₚ proxies pm /\
  domain (startAutoSwitch U draws pm).1.1 = domain pm.
Proof.
  revert pm. induction draws as [|draw rest IH]; intros pm; simpl; [done|].
  pose proof (RegistryFacts.switchProxy_proxies U draw pm) as Hp.
  pose proof (switchProxy_domain draw pm) as Hd.
  destruct (switchProxy U draw pm) as [pm' active|pm']; simpl in *.
  - destruct (IH pm') as [H1 H2]. split; [by rewrite H1|congruence].
  - done.
Qed.

Lemma startAutoSwitch_Inv draws pm :
  Inv pm -> Inv (startAutoSwitch U draws pm).1.1.
Proof.
  revert pm. induction draws as [|draw rest IH]; intros pm HI; simpl; [done|].
  pose proof (RegistryFacts.switchProxy_Inv U draw pm HI) as H'.
  destruct (switchProxy U draw pm) as [pm' active|pm']; simpl in *; [by apply IH|done].
Qed.

Lemma switchProxy_Returned draw pm pm' active :
  switchProxy U draw pm = Returned pm' active ->
  exists u, currentProxy pm' = Some u /\ active = url_String U u.
Proof.
  unfold switchProxy. destruct (_ !! 0%nat) as [[u|]|]; intros H; try discriminate.
  injection H as <- <-. by exists u.
Qed.

Lemma subscriber_cons c payload payloads :
  subscriber c (payload :: payloads) = subscriber payload payloads.
Proof. reflexivity. Qed.

(** A worker's cached active URL follows the rotation: once the
    announcements of a run of rotations (at least one, none of which
    panicked) have all been received in order, [currentProxyURL] is the
    URL of the endpoint under the registry's cursor, whatever it was
    before. *)
Theorem subscriber_follows_rotations draws pm c :
  draws <> [] ->
  (startAutoSwitch U draws pm).2 = true ->
  exists u,
    currentProxy (startAutoSwitch U draws pm).1.1 = Some u /\
    subscriber c (startAutoSwitch U draws pm).1.2 = url_String U u.
Proof.
  revert pm c. induction draws as [|draw rest IH]; intros pm c Hne Hrun; [done|].
  cbn [startAutoSwitch] in *.
  destruct (switchProxy U draw pm) as [pm' active|pm'] eqn:E; cbn [fst snd] in *;
    [|discriminate].
  rewrite subscriber_cons.
  destruct rest as [|draw' rest'].
  - cbn [startAutoSwitch fst snd].
    destruct (switchProxy_Returned _ _ _ _ E) as (u & Hu & ->). by exists u.
  - apply IH; [done|exact Hrun].
Qed.

End Rotation.

(** Over any number of rotations the registry keeps its endpoints: the
    list stays a permutation of the one NewProxyManager built (no endpoint
    is lost, added or duplicated, the length is the same), the cursor stays
    a member of it, and the domain does not change. *)
Theorem rotation_keeps_the_endpoints (U : UrlLib) urls dom
    (pm : ProxyManager U) draws :
  NewProxyManager U urls dom = Some pm ->
  let pm' := (startAutoSwitch U draws pm).1.1 in
  proxies pm' ≡ₚ map (url_Parse U) urls /\
  length (proxies pm') = length urls /\
  currentProxy pm' ∈ proxies pm' /\
  domain pm' = dom.
Proof.
  intros Hnew pm'. subst pm'.
  destruct (startAutoSwitch_proxies U draws pm) as [Hp Hd].
  pose proof (RegistryFacts.NewProxyManager_Inv U _ _ _ Hnew) as HI.
  apply (startAutoSwitch_Inv U draws) in HI.
  unfold NewProxyManager in Hnew.
  destruct (map (url_Parse U) urls !! 0%nat) as [p|]; [|discriminate].
  injection Hnew as <-. simpl in *.
  split; [exact Hp|]. split; [|split; [apply HI|exact Hd]].
  by rewrite Hp, length_map.
Qed.

(** Three rotations of the registry of two endpoints. *)
Lemma rotation_keeps_the_endpoints_witness :
  length (proxies (startAutoSwitch Instances.SimpleUrl
                     [fun _ => 0%nat; fun _ => 1%nat; fun i => i]
                     Examples.registry_8081).1.1) = 2%nat.
Proof.
  exact (proj1 (proj2 (rotation_keeps_the_endpoints Instances.SimpleUrl
                         Examples.two_proxies EmptyString Examples.registry_8081
                         [fun _ => 0%nat; fun _ => 1%nat; fun i => i] eq_refl))).
Defined.

(** Every endpoint of the registry can become the active one: for each
    position of the list there is an outcome of the random generator with
    which one rotation puts the endpoint of that position under the
    cursor. *)
Theorem every_endpoint_can_become_active (U : UrlLib) (pm : ProxyManager U)
    k p :
  proxies pm !! k = Some p ->
  exists draw, currentProxy (state_after (switchProxy U draw pm)) = p.
Proof.
  intros Hk. exists (pick k).
  pose proof (Shuffle_pick (proxies pm) k p Hk) as H0.
  unfold switchProxy. rewrite H0. by destruct p.
Qed.

(** The second endpoint of the registry of two. *)
Lemma every_endpoint_can_become_active_witness :
  exists draw,
    currentProxy (state_after (switchProxy Instances.SimpleUrl draw
                                 Examples.registry_8081))
    = Instances.simple_parse "https://host:8082".
Proof.
  exact (every_endpoint_can_become_active Instances.SimpleUrl
           Examples.registry_8081 1 _ eq_refl).
Defined.

(** Two rotations of the registry of two endpoints, the second of which
    selects the endpoint on 8082. *)
Lemma subscriber_follows_rotations_witness :
  subscriber "https://localhost"
    (startAutoSwitch Instances.SimpleUrl [fun i => i; fun _ => 0%nat]
       Examples.registry_8081).1.2
  = "https://host:8082".
Proof.
  destruct (subscriber_follows_rotations Instances.SimpleUrl
              [fun i => i; fun _ => 0%nat] Examples.registry_8081
              "https://localhost" ltac:(discriminate) eq_refl)
    as (u & Hu & Hs).
  rewrite Hs. vm_compute in Hu. injection Hu as <-. reflexivity.
Defined.

End RotationFacts.

Module SetupFacts.
Import Setup.

Lemma split_comma_nonempty s : split_comma s <> [].
Proof.
  destruct s as [|c s]; simpl; [discriminate|].
  destruct (Ascii.eqb c ","%char); [discriminate|].
  destruct (split_comma s); discriminate.
Qed.

Lemma portList_nonempty proxyPorts proxyCount : portList proxyPorts proxyCount <> [].
Proof.
  unfold portList. destruct (_ <? _)%Z; [discriminate|apply split_comma_nonempty].
Qed.

(** The configuration of iteration [i] over a port list that is not
    empty. *)
Lemma proxyConfig_Some ports backend i :
  ports <> [] ->
  exists port,
    ports !! (i mod length ports)%nat = Some port /\
    proxyConfig ports backend i
    = Some {| id := "proxy" +:+ pretty (S i); address := ":" +:+ port;
              backendURL := backend |}.
Proof.
  intros Hne. unfold proxyConfig.
  destruct (ports !! (i mod length ports)%nat) as [port|] eqn:E.
  - by exists port.
  - apply lookup_ge_None in E.
    assert (length ports <> 0%nat) by (destruct ports; [done|simpl; lia]).
    pose proof (Nat.mod_upper_bound i (length ports)). lia.
Qed.

Lemma mapM_lookup {A B} (f : A -> option B) (l : list A) (k : list B) i x :
  mapM f l = Some k -> l !! i = Some x -> exists y, k !! i = Some y /\ f x = Some y.
Proof.
  intros Hm Hl. apply mapM_Some_1 in Hm.
  destruct (Forall2_lookup_l _ _ _ _ _ Hm Hl) as (y & Hy & Hf). by exists y.
Qed.

Lemma proxyConfigs_Some ports backend proxyCount :
  ports <> [] ->
  exists configs,
    proxyConfigs ports backend proxyCount = Some configs /\
    length configs = Z.to_nat proxyCount.
Proof.
  intros Hne. unfold proxyConfigs.
  destruct (mapM_is_Some_2 (proxyConfig ports backend) (seq 0 (Z.to_nat proxyCount)))
    as [configs Hc].
  - apply Forall_forall. intros i _. simpl.
    destruct (proxyConfig_Some ports backend i Hne) as (port & _ & ->). by eexists.
  - exists configs. split; [exact Hc|].
    apply length_mapM in Hc. by rewrite length_seq in Hc.
Qed.

Lemma proxyConfigs_lookup ports backend proxyCount configs i :
  ports <> [] ->
  proxyConfigs ports backend proxyCount = Some configs ->
  (i < Z.to_nat proxyCount)%nat ->
  exists port,
    ports !! (i mod length ports)%nat = Some port /\
    configs !! i
    = Some {| id := "proxy" +:+ pretty (S i); address := ":" +:+ port;
              backendURL := backend |}.
Proof.
  intros Hne Hc Hi. unfold proxyConfigs in Hc.
  destruct (mapM_lookup _ _ _ i i Hc) as (c & Hci & Hf).
  { by rewrite lookup_seq_lt. }
  destruct (proxyConfig_Some ports backend i Hne) as (port & Hp & Hg).
  exists port. split; [exact Hp|]. congruence.
Qed.

Lemma proxyConfigs_ids ports backend proxyCount configs :
  ports <> [] ->
  proxyConfigs ports backend proxyCount = Some configs ->
  map id configs = map (fun i => "proxy" +:+ pretty (S i)) (seq 0 (Z.to_nat proxyCount)).
Proof.
  intros Hne Hc. apply list_eq. intros i.
  rewrite !list_lookup_fmap.
  destruct (decide (i < Z.to_nat proxyCount)%nat) as [Hi|Hi].
  - destruct (proxyConfigs_lookup _ _ _ _ i Hne Hc Hi) as (port & _ & ->).
    by rewrite lookup_seq_lt.
  - unfold proxyConfigs in Hc. apply length_mapM in Hc. rewrite length_seq in Hc.
    rewrite (lookup_ge_None_2 configs) by lia.
    by rewrite lookup_seq_ge by lia.
Qed.

(** The proxy configurations main builds, for every value of the flags:
    there are as many as -proxy-count asks for (none when it is not
    positive); the one of iteration i has the id proxy(i+1) and the port
    of position i modulo the length of the port list; no two have the same
    id. *)
Theorem proxy_configs proxyPorts backend proxyCount :
  exists configs,
    proxyConfigs (portList proxyPorts proxyCount) backend proxyCount = Some configs /\
    length configs = Z.to_nat proxyCount /\
    NoDup (map id configs) /\
    forall i, (i < Z.to_nat proxyCount)%nat ->
      exists port,
        portList proxyPorts proxyCount
          !! (i mod length (portList proxyPorts proxyCount))%nat = Some port /\
        configs !! i
        = Some {| id := "proxy" +:+ pretty (S i); address := ":" +:+ port;
                  backendURL := backend |}.
Proof.
  pose proof (portList_nonempty proxyPorts proxyCount) as Hne.
  destruct (proxyConfigs_Some _ backend proxyCount Hne) as (configs & Hc & Hlen).
  exists configs. split; [exact Hc|]. split; [exact Hlen|]. split.
  - rewrite (proxyConfigs_ids _ _ _ _ Hne Hc).
    apply NoDup_fmap_2_strong; [|apply NoDup_seq].
    intros i j _ _ H. cbn [String.append] in H. injection H as H.
    change (pretty (S i) = pretty (S j)) in H.
    apply (inj (pretty : nat -> string)) in H. lia.
  - intros i Hi. by apply (proxyConfigs_lookup _ backend proxyCount).
Qed.

(** With fewer ports than proxies, main discards the ports it was given
    and falls back to 8081..8084; the ports then repeat every four
    proxies, so proxy i+1 and proxy i+5 are given the same address. *)
Theorem too_few_ports_share_addresses proxyPorts backend proxyCount i :
  Z.of_nat (length (split_comma proxyPorts)) < proxyCount ->
  (i + 4 < Z.to_nat proxyCount)%nat ->
  exists configs c1 c2,
    proxyConfigs (portList proxyPorts proxyCount) backend proxyCount = Some configs /\
    configs !! i = Some c1 /\
    configs !! (i + 4)%nat = Some c2 /\
    address c1 = address c2 /\
    address c1 ∈ map (fun port => ":" +:+ port) defaultPorts.
Proof.
  intros Hfew Hi.
  pose proof (portList_nonempty proxyPorts proxyCount) as Hne.
  destruct (proxyConfigs_Some _ backend proxyCount Hne) as (configs & Hc & _).
  assert (portList proxyPorts proxyCount = defaultPorts) as Hp.
  { unfold portList. apply Z.ltb_lt in Hfew. by rewrite Hfew. }
  rewrite Hp in *.
  destruct (proxyConfigs_lookup _ _ _ _ i Hne Hc ltac:(lia)) as (p1 & Hp1 & H1).
  destruct (proxyConfigs_lookup _ _ _ _ (i + 4)%nat Hne Hc ltac:(lia))
    as (p2 & Hp2 & H2).
  change (length defaultPorts) with 4%nat in *.
  replace ((i + 4) mod 4)%nat with (i mod 4)%nat in Hp2
    by (rewrite <- (Nat.Div0.add_mod_idemp_r i 4 4); simpl; by rewrite Nat.add_0_r).
  assert (p1 = p2) as <- by congruence.
  eexists configs, _, _. split; [exact Hc|]. split; [exact H1|]. split; [exact H2|].
  split; [reflexivity|].
  change (":" +:+ p1 ∈ (fun port => ":" +:+ port) <$> defaultPorts).
  apply list_elem_of_fmap. exists p1. split; [reflexivity|].
  by eapply list_elem_of_lookup_2.
Qed.

(** Five proxies over the default four ports: proxy1 and proxy5 both get
    port 8081. *)
Lemma too_few_ports_share_addresses_witness :
  exists configs c1 c2,
    proxyConfigs (portList "8081,8082,8083,8084" 5) "http://127.0.0.1:5000" 5
      = Some configs /\
    configs !! 0%nat = Some c1 /\
    configs !! 4%nat = Some c2 /\
    address c1 = address c2 /\
    address c1 ∈ map (fun port => ":" +:+ port) defaultPorts.
Proof.
  exact (too_few_ports_share_addresses "8081,8082,8083,8084"
           "http://127.0.0.1:5000" 5 0 eq_refl ltac:(vm_compute; lia)).
Defined.

(** When main gets as far as a registry.  Once a host is chosen, main
    builds the registry exactly when the calls on the queue return (with
    -queue-system), the ACL file loads (with -acl-file) and -proxy-count is
    positive: a failed LoadACLConfig ends the process in log.Fatalf, and
    with a count of zero or less no configuration is made, the URL list is
    empty and NewProxyManager panics on proxies[0]. *)
Theorem registry_needs_a_proxy (U : UrlLib)
    ServerIPArg dom queueSystem aclFile proxyPorts BackendURLFlag proxyCount
    o host :
  serverIP ServerIPArg dom (InterfaceAddrs o) = Some host ->
  is_Some (main_registry U ServerIPArg dom queueSystem aclFile proxyPorts
             BackendURLFlag proxyCount o)
  <-> (queueSystem = true -> queue_setup o = true) /\
      (aclFile <> EmptyString -> LoadACLConfig o = true) /\
      0 < proxyCount.
Proof.
  intros Hh. unfold main_registry. rewrite Hh.
  destruct (queueSystem && negb (queue_setup o)) eqn:Eq.
  { apply andb_true_iff in Eq as [-> Eq]. apply negb_true_iff in Eq.
    split; [intros [x Hx]; discriminate|].
    intros (H & _ & _). specialize (H eq_refl). congruence. }
  assert (queueSystem = true -> queue_setup o = true) as Hq.
  { intros ->. simpl in Eq. by apply negb_false_iff in Eq. }
  destruct (String.eqb_spec aclFile EmptyString) as [Ha|Ha]; simpl.
  2: destruct (LoadACLConfig o) eqn:El; simpl.
  3: { split; [intros [x Hx]; discriminate|].
       intros (_ & H & _). specialize (H Ha). discriminate. }
  all: destruct (proxyConfigs_Some _ (backendURLserver BackendURLFlag) proxyCount
                   (portList_nonempty proxyPorts proxyCount))
         as (configs & -> & Hlen);
       unfold Registry.NewProxyManager, proxyURLs;
       rewrite !list_lookup_fmap;
       destruct configs as [|c rest]; simpl in *.
  - split; [intros [x Hx]; discriminate|]. lia.
  - split; [|intros _; by eexists]. intros _. split; [exact Hq|]. split; [done|lia].
  - split; [intros [x Hx]; discriminate|]. lia.
  - split; [|intros _; by eexists]. intros _. split; [exact Hq|]. split; [done|lia].
Qed.

(** The default flags with the host given by -ip and an ACL file that
    loads. *)
Lemma registry_needs_a_proxy_witness :
  is_Some (main_registry Instances.SimpleUrl "203.0.113.7" EmptyString
             false "acl.yaml" "8081,8082,8083,8084" "http://127.0.0.1:5000" 4
             {| InterfaceAddrs := None; queue_setup := false;
                LoadACLConfig := true |}).
Proof.
  refine (proj2 (registry_needs_a_proxy Instances.SimpleUrl "203.0.113.7"
                   EmptyString false "acl.yaml" "8081,8082,8083,8084"
                   "http://127.0.0.1:5000" 4
                   {| InterfaceAddrs := None; queue_setup := false;
                      LoadACLConfig := true |}
                   "203.0.113.7" eq_refl) _).
  split; [discriminate|]. split; [reflexivity|reflexivity].
Defined.

Lemma scan_addrs_first pre ip post loopbackIP :
  public4 ip ->
  (forall ip', IPNet ip' ∈ pre -> To4 ip' = true -> IsLoopback ip' = true) ->
  scan_addrs (pre ++ IPNet ip :: post)%list loopbackIP = inl (IP_String ip).
Proof.
  intros [H4 Hl] Hpre. revert loopbackIP.
  induction pre as [|a pre IH]; intros loopbackIP; simpl.
  - by rewrite H4, Hl.
  - destruct a as [ip0|].
    + destruct (To4 ip0) eqn:E4.
      * rewrite (Hpre ip0) by (done || by left). apply IH.
        intros ip' Hin. apply Hpre. by right.
      * apply IH. intros ip' Hin. apply Hpre. by right.
    + apply IH. intros ip' Hin. apply Hpre. by right.
Qed.

Lemma scan_addrs_inl addrs loopbackIP s :
  scan_addrs addrs loopbackIP = inl s ->
  exists ip, IPNet ip ∈ addrs /\ public4 ip /\ IP_String ip = s.
Proof.
  revert loopbackIP. induction addrs as [|a addrs IH]; intros loopbackIP H; simpl in H.
  - discriminate.
  - destruct a as [ip0|].
    + destruct (To4 ip0) eqn:E4; [destruct (IsLoopback ip0) eqn:El|].
      * destruct (IH _ H) as (ip & Hin & Hp & Hs). exists ip. split; [by right|done].
      * injection H as <-. exists ip0. split; [by left|done].
      * destruct (IH _ H) as (ip & Hin & Hp & Hs). exists ip. split; [by right|done].
    + destruct (IH _ H) as (ip & Hin & Hp & Hs). exists ip. split; [by right|done].
Qed.

Lemma scan_addrs_inr addrs loopbackIP s :
  scan_addrs addrs loopbackIP = inr s ->
  (forall ip, IPNet ip ∈ addrs -> To4 ip = true -> IsLoopback ip = true) /\
  ((s = loopbackIP /\ forall ip, IPNet ip ∈ addrs -> To4 ip = false) \/
   exists ip, IPNet ip ∈ addrs /\ To4 ip = true /\ IsLoopback ip = true /\
              IP_String ip = s).
Proof.
  revert loopbackIP. induction addrs as [|a addrs IH]; intros loopbackIP H; simpl in H.
  - injection H as <-. split.
    + intros ip Hin. by apply elem_of_nil in Hin.
    + left. split; [done|]. intros ip Hin. by apply elem_of_nil in Hin.
  - destruct a as [ip0|].
    + destruct (To4 ip0) eqn:E4; [destruct (IsLoopback ip0) eqn:El|].
      * destruct (IH _ H) as [Hall Hs]. split.
        -- intros ip Hin H4. apply elem_of_cons in Hin as [Heq|Hin]; [|by apply Hall].
           by injection Heq as ->.
        -- right. destruct Hs as [[-> Hno]|(ip & Hin & ? & ? & ?)].
           ++ exists ip0. split; [by left|done].
           ++ exists ip. split; [by right|done].
      * discriminate.
      * destruct (IH _ H) as [Hall Hs]. split.
        -- intros ip Hin H4. apply elem_of_cons in Hin as [Heq|Hin]; [|by apply Hall].
           injection Heq as ->. congruence.
        -- destruct Hs as [[-> Hno]|(ip & Hin & ? & ? & ?)].
           ++ left. split; [done|]. intros ip Hin.
              apply elem_of_cons in Hin as [Heq|Hin]; [|by apply Hno].
              by injection Heq as ->.
           ++ right. exists ip. split; [by right|done].
    + destruct (IH _ H) as [Hall Hs]. split.
      * intros ip Hin H4. apply elem_of_cons in Hin as [Heq|Hin]; [done|by apply Hall].
      * destruct Hs as [[-> Hno]|(ip & Hin & ? & ? & ?)].
        -- left. split; [done|]. intros ip Hin.
           apply elem_of_cons in Hin as [Heq|Hin]; [done|by apply Hno].
        -- right. exists ip. split; [by right|done].
Qed.

(** The address getServerIPAddress settles on.  What it returns is the
    string of an IPv4 address of an interface, never of another kind of
    address, and a loopback address only when no interface has another
    IPv4 address; the first IPv4 address that is not a loopback wins,
    wherever the loopback addresses stand; and it ends in log.Fatalf only
    when no IPv4 address is found with a string to return. *)
Theorem server_ip_choice (addrs : list Addr) :
  (forall s, getServerIPAddress (Some addrs) = Some s ->
     exists ip, IPNet ip ∈ addrs /\ To4 ip = true /\ IP_String ip = s /\
       (IsLoopback ip = true ->
        forall ip', IPNet ip' ∈ addrs -> To4 ip' = true -> IsLoopback ip' = true)) /\
  (forall pre ip post,
     addrs = (pre ++ IPNet ip :: post)%list ->
     To4 ip = true -> IsLoopback ip = false ->
     (forall ip', IPNet ip' ∈ pre -> To4 ip' = true -> IsLoopback ip' = true) ->
     getServerIPAddress (Some addrs) = Some (IP_String ip)) /\
  ((exists ip, IPNet ip ∈ addrs /\ To4 ip = true) ->
   (forall ip, IPNet ip ∈ addrs -> IP_String ip <> EmptyString) ->
   is_Some (getServerIPAddress (Some addrs))).
Proof.
  unfold getServerIPAddress. simpl. split; [|split].
  - intros s H.
    destruct (scan_addrs addrs EmptyString) as [s'|lb] eqn:E.
    + injection H as <-.
      destruct (scan_addrs_inl _ _ _ E) as (ip & Hin & [H4 Hl] & Hs).
      exists ip. repeat split; try done. intros Hl'. congruence.
    + destruct (String.eqb_spec lb EmptyString) as [->|Hne]; [discriminate|].
      injection H as <-.
      destruct (scan_addrs_inr _ _ _ E) as [Hall [[Heq _]|(ip & Hin & H4 & Hl & Hs)]];
        [done|].
      exists ip. repeat split; try done.
  - intros pre ip post -> H4 Hl Hpre.
    by rewrite scan_addrs_first.
  - intros (ip & Hin & H4) Hstr.
    destruct (scan_addrs addrs EmptyString) as [s'|lb] eqn:E; [by eexists|].
    destruct (scan_addrs_inr _ _ _ E) as [Hall [[_ Hno]|(ip' & Hin' & _ & _ & Hs)]].
    + rewrite (Hno ip Hin) in H4. discriminate.
    + destruct (String.eqb_spec lb EmptyString) as [->|Hne]; simpl; [|by eexists].
      by destruct (Hstr ip' Hin').
Qed.

(** A loopback interface listed before the public one. *)
Lemma server_ip_choice_witness :
  getServerIPAddress
    (Some [IPNet {| To4 := true; IsLoopback := true; IP_String := "127.0.0.1" |};
           IPNet {| To4 := false; IsLoopback := false; IP_String := "fe80::1" |};
           IPNet {| To4 := true; IsLoopback := false; IP_String := "203.0.113.7" |}])
  = Some "203.0.113.7".
Proof.
  refine (proj1 (proj2 (server_ip_choice _))
            [IPNet {| To4 := true; IsLoopback := true; IP_String := "127.0.0.1" |};
             IPNet {| To4 := false; IsLoopback := false; IP_String := "fe80::1" |}]
            {| To4 := true; IsLoopback := false; IP_String := "203.0.113.7" |}
            [] eq_refl eq_refl eq_refl _).
  intros ip' Hin H4.
  apply elem_of_cons in Hin as [Heq|Hin]; [by injection Heq as ->|].
  apply elem_of_cons in Hin as [Heq|Hin]; [injection Heq as ->; discriminate|].
  by apply elem_of_nil in Hin.
Defined.

End SetupFacts.

Module ApiKeyFacts.
Import ApiKey.

Lemma hexdigit_inj n m :
  (n < 16)%N -> (m < 16)%N -> hexdigit n = hexdigit m -> n = m.
Proof.
  intros Hn Hm.
  rewrite <- (N2Nat.id n), <- (N2Nat.id m).
  assert (N.to_nat n < 16)%nat as Ha by lia.
  assert (N.to_nat m < 16)%nat as Hb by lia.
  revert Ha Hb. generalize (N.to_nat n) (N.to_nat m). clear.
  intros a b Ha Hb H.
  do 16 (destruct a as [|a];
         [do 16 (destruct b as [|b]; [first [reflexivity|discriminate H]|]); lia|]).
  lia.
Qed.

Lemma hexdigit_in_table n :
  (n < 16)%N -> hexdigit n ∈ list_ascii_of_string hextable.
Proof.
  intros Hn. rewrite <- (N2Nat.id n).
  assert (N.to_nat n < 16)%nat as Ha by lia.
  revert Ha. generalize (N.to_nat n). clear. intros a Ha.
  do 16 (destruct a as [|a]; [vm_compute; set_solver|]).
  lia.
Qed.

Lemma to_N_lt_256 b : (Byte.to_N b < 256)%N.
Proof. pose proof (Byte.to_N_bounded b). lia. Qed.

Lemma to_N_inj b1 b2 : Byte.to_N b1 = Byte.to_N b2 -> b1 = b2.
Proof.
  intros H. pose proof (Byte.of_to_N b1) as H1. pose proof (Byte.of_to_N b2) as H2.
  rewrite H in H1. congruence.
Qed.

Lemma EncodeToString_length src :
  String.length (EncodeToString src) = (2 * length src)%nat.
Proof. induction src as [|b src IH]; simpl; [reflexivity|]. rewrite IH. lia. Qed.

Lemma EncodeToString_inj src1 src2 :
  EncodeToString src1 = EncodeToString src2 -> src1 = src2.
Proof.
  revert src2. induction src1 as [|b1 src1 IH]; intros [|b2 src2] H;
    try discriminate; [reflexivity|].
  simpl in H. injection H as Hhi Hlo Hrest.
  pose proof (to_N_lt_256 b1). pose proof (to_N_lt_256 b2).
  apply hexdigit_inj in Hhi; [|apply N.Div0.div_lt_upper_bound; lia..].
  apply hexdigit_inj in Hlo; [|apply N.mod_lt; lia..].
  f_equal; [|by apply IH].
  apply to_N_inj.
  rewrite (N.div_mod (Byte.to_N b1) 16), (N.div_mod (Byte.to_N b2) 16) by lia.
  by rewrite Hhi, Hlo.
Qed.

Lemma EncodeToString_chars src :
  Forall (fun c => c ∈ list_ascii_of_string hextable)
    (list_ascii_of_string (EncodeToString src)).
Proof.
  induction src as [|b src IH]; simpl; [constructor|].
  pose proof (to_N_lt_256 b).
  constructor; [|constructor; [|exact IH]].
  - apply hexdigit_in_table. apply N.Div0.div_lt_upper_bound; lia.
  - apply hexdigit_in_table. apply N.mod_lt. lia.
Qed.

(** The API key generateAPIKey makes from the 32 bytes of rand.Read is a
    string of 64 characters, each a digit or a letter a to f, and it
    determines the bytes: different random bytes give different keys. *)
Theorem api_key (key : bytes) :
  length key = 32%nat ->
  exists k,
    generateAPIKey (Some key) = Some k /\
    String.length k = 64%nat /\
    Forall (fun c => c ∈ list_ascii_of_string "0123456789abcdef")
      (list_ascii_of_string k) /\
    forall key', generateAPIKey (Some key') = Some k -> key' = key.
Proof.
  intros Hlen. exists (EncodeToString key). split; [reflexivity|].
  split; [by rewrite EncodeToString_length, Hlen|].
  split; [apply EncodeToString_chars|].
  intros key' H. injection H as H. by apply EncodeToString_inj.
Qed.

(** The key made of 32 bytes ff. *)
Lemma api_key_witness :
  exists k,
    generateAPIKey (Some (repeat Byte.xff 32)) = Some k /\
    String.length k = 64%nat.
Proof.
  destruct (api_key (repeat Byte.xff 32) eq_refl) as (k & Hk & Hlen & _).
  exists k. by split.
Defined.

End ApiKeyFacts.

Module DirectorFacts.
Import HttpHeader Director.

Section Director.
Variable U : UrlLib.
Variable url_Path : URL U -> string.
Variable originalDirector : Outgoing -> Outgoing.
Implicit Types (req : Outgoing) (values : gmap string Worker.Any).

Lemma apply_message_header req values req' :
  apply_message U url_Path req values = Some req' ->
  out_Header req' = out_Header req.
Proof.
  unfold apply_message. intros H.
  destruct (values !! "redirect_url") as [[newURL|]|];
    [destruct (url_Parse U newURL); [|discriminate]|..];
    injection H as <-; simpl;
    destruct (values !! "block") as [[s|]|]; try reflexivity;
    by destruct (String.eqb s "true").
Qed.

Lemma apply_messages_header req msgs req' :
  apply_messages U url_Path req msgs = Some req' ->
  out_Header req' = out_Header req.
Proof.
  revert req. induction msgs as [|values rest IH]; intros req H; simpl in H.
  - by injection H as <-.
  - destruct (apply_message U url_Path req values) as [req1|] eqn:E; [|discriminate].
    rewrite (IH _ H). by eapply apply_message_header.
Qed.

Lemma apply_messages_app req msgs1 msgs2 :
  apply_messages U url_Path req (msgs1 ++ msgs2)
  = match apply_messages U url_Path req msgs1 with
    | Some req' => apply_messages U url_Path req' msgs2
    | None => None
    end.
Proof.
  revert req. induction msgs1 as [|values rest IH]; intros req; simpl; [reflexivity|].
  destruct (apply_message U url_Path req values); [apply IH|reflexivity].
Qed.

Lemma apply_message_redirect req values newURL u :
  values !! "redirect_url" = Some (Worker.AString newURL) ->
  url_Parse U newURL = Some u ->
  exists req',
    apply_message U url_Path req values = Some req' /\
    out_Scheme req' = url_Scheme U u /\ out_Host req' = url_Host U u /\
    out_Path req' = url_Path u.
Proof.
  intros Hv Hp. unfold apply_message. rewrite Hv, Hp. by eexists.
Qed.

(** Without a redirect_url a message keeps the scheme and the path, and
    it leaves the host empty when it blocks or when the host was empty. *)
Lemma apply_message_no_redirect req values :
  no_redirect values ->
  exists req',
    apply_message U url_Path req values = Some req' /\
    out_Scheme req' = out_Scheme req /\ out_Path req' = out_Path req /\
    (out_Host req' = EmptyString \/
     out_Host req' = out_Host req /\
     values !! "block" <> Some (Worker.AString "true")).
Proof.
  intros Hno. unfold apply_message.
  destruct (values !! "redirect_url") as [[newURL|]|] eqn:E;
    [by destruct (Hno newURL)|..];
    (destruct (values !! "block") as [[s|]|]; [destruct (String.eqb_spec s "true")|..];
     eexists; (split; [reflexivity|]); simpl; repeat split; auto;
     right; split; [reflexivity|]; congruence).
Qed.

Lemma apply_messages_blocked req msgs :
  Forall no_redirect msgs ->
  (out_Host req = EmptyString \/
   Exists (fun values => values !! "block" = Some (Worker.AString "true")) msgs) ->
  exists req',
    apply_messages U url_Path req msgs = Some req' /\
    out_Scheme req' = out_Scheme req /\ out_Path req' = out_Path req /\
    out_Host req' = EmptyString.
Proof.
  intros HF. revert req. induction HF as [|values rest Hno _ IH]; intros req Hb.
  - destruct Hb as [Hb|Hb]; [|by apply Exists_nil in Hb]. by exists req.
  - simpl.
    destruct (apply_message_no_redirect req values Hno)
      as (req1 & -> & Hs & Hp & Hh).
    destruct (IH req1) as (req' & Hr & Hs' & Hp' & Hh').
    + destruct Hh as [Hh|[Hh Hnb]]; [by left|].
      destruct Hb as [Hb|Hb]; [left; congruence|].
      apply Exists_cons in Hb as [Hb|Hb]; [done|by right].
    + exists req'. repeat split; try done; congruence.
Qed.

End Director.

(** The proxy id on the outgoing request as the director leaves it.  The
    director of a worker started with a queue, when it returns, has added
    the worker's id as one more X-Proxy-ID occurrence to what the reverse
    proxy's own director leaves, whatever the directive stream answers (or
    fails to answer); the director of a worker started without a queue is
    the reverse proxy's own and adds nothing.  What httputil.ReverseProxy
    does to the header after the director (it removes the headers the
    client's Connection header names) is not part of the statement. *)
Theorem director_proxy_id (U : UrlLib) (url_Path : URL U -> string)
    originalDirector proxyID xReadGroup req :
  Director U url_Path originalDirector false proxyID xReadGroup req
    = Some (originalDirector req) /\
  forall out,
    Director U url_Path originalDirector true proxyID xReadGroup req = Some out ->
    Values (out_Header out) "X-Proxy-ID"
    = (Values (out_Header (originalDirector req)) "X-Proxy-ID" ++ [proxyID])%list.
Proof.
  split; [reflexivity|]. intros out H. unfold Director in H. simpl in H.
  assert (out_Header out
          = Add (out_Header (originalDirector req)) "X-Proxy-ID" proxyID) as ->.
  { destruct xReadGroup as [messages|]; [|by injection H as <-].
    destruct (messages !! 0%nat) as [msgs|]; [|discriminate].
    by apply apply_messages_header in H. }
  apply HeaderFacts.Values_Add_eq.
Qed.

(** A read of the stream that times out. *)
Lemma director_proxy_id_witness :
  exists out,
    Director Instances.SimpleUrl Instances.s_path (fun req => req) true "proxy1"
      None {| out_Scheme := "http"; out_Host := "127.0.0.1:5000";
              out_Path := "/x"; out_Header := ∅ |} = Some out /\
    Values (out_Header out) "X-Proxy-ID" = ["proxy1"].
Proof.
  eexists. split; [reflexivity|].
  etrans.
  - exact (proj2 (director_proxy_id Instances.SimpleUrl Instances.s_path
                    (fun req => req) "proxy1" None
                    {| out_Scheme := "http"; out_Host := "127.0.0.1:5000";
                       out_Path := "/x"; out_Header := ∅ |}) _ eq_refl).
  - reflexivity.
Defined.

(** What the directives read from the stream do to the target of the
    forwarded request.  A redirect_url that parses sets scheme, host and
    path, also when the same message or an earlier one says block; without
    any redirect_url, one message saying block leaves the host empty with
    scheme and path as they were. *)
Theorem directive_effects (U : UrlLib) (url_Path : URL U -> string)
    req msgs :
  (forall req' values newURL u,
     apply_messages U url_Path req msgs = Some req' ->
     values !! "redirect_url" = Some (Worker.AString newURL) ->
     url_Parse U newURL = Some u ->
     exists out,
       apply_messages U url_Path req (msgs ++ [values]) = Some out /\
       out_Scheme out = url_Scheme U u /\ out_Host out = url_Host U u /\
       out_Path out = url_Path u) /\
  (Forall no_redirect msgs ->
   Exists (fun values => values !! "block" = Some (Worker.AString "true")) msgs ->
   exists out,
     apply_messages U url_Path req msgs = Some out /\
     out_Scheme out = out_Scheme req /\ out_Path out = out_Path req /\
     out_Host out = EmptyString).
Proof.
  split.
  - intros req' values newURL u Hm Hv Hp.
    rewrite apply_messages_app, Hm. simpl.
    destruct (apply_message_redirect U url_Path req' values newURL u Hv Hp)
      as (out & -> & ?). by exists out.
  - intros HF HE. apply apply_messages_blocked; [done|by right].
Qed.

(** One message that says block and gives a redirect_url: the request
    goes to the redirect target. *)
Lemma directive_effects_witness :
  exists out,
    apply_messages Instances.SimpleUrl Instances.s_path
      {| out_Scheme := "http"; out_Host := "127.0.0.1:5000"; out_Path := "/x";
         out_Header := ∅ |}
      ([] ++ [ {[ "block" := Worker.AString "true";
                  "redirect_url" := Worker.AString "https://example.org/y" ]} ])
    = Some out /\
    out_Host out = "example.org".
Proof.
  destruct (proj1 (directive_effects Instances.SimpleUrl Instances.s_path
                     {| out_Scheme := "http"; out_Host := "127.0.0.1:5000";
                        out_Path := "/x"; out_Header := ∅ |} [])
              _ {[ "block" := Worker.AString "true";
                   "redirect_url" := Worker.AString "https://example.org/y" ]}
              "https://example.org/y"
              {| Instances.s_scheme := "https"; Instances.s_host := "example.org";
                 Instances.s_path := "/y" |}
              eq_refl ltac:(by vm_compute) eq_refl) as (out & Ho & _ & Hh & _).
  exists out. by split.
Defined.

End DirectorFacts.

Module ResponseFacts.
Import HttpHeader Http HeaderRules Worker.

Section Frame.
Variable R : RegexpLib.
Implicit Types (h : Header) (rule : HeaderRule) (k : string).

Lemma Values_Add_ne h k k' v :
  CanonicalMIMEHeaderKey k <> CanonicalMIMEHeaderKey k' ->
  Values (Add h k v) k' = Values h k'.
Proof. intros H. unfold Values, Add. by rewrite lookup_insert_ne. Qed.

Lemma applyRule_frame rule h h' k :
  applyRule R h rule = Some h' ->
  CanonicalMIMEHeaderKey (Header_ rule) <> CanonicalMIMEHeaderKey k ->
  Values h' k = Values h k.
Proof.
  unfold applyRule. intros H Hne.
  repeat match type of H with
         | (if ?b then _ else _) = _ => destruct b
         | match ?o with Some _ => _ | None => _ end = _ => destruct o
         end; try discriminate; injection H as <-;
    auto using Values_Add_ne, HeaderFacts.Values_Set_ne, HeaderFacts.Values_Del_ne.
Qed.

(** The header rules touch the headers they name and no other: after the
    whole rule list, a header that no rule names (up to the canonical form
    of the names) has the occurrences the backend sent, in the same
    order. *)
Theorem rules_touch_named_headers_only headerRules h h' k :
  applyHeaderRules R headerRules h = Some h' ->
  Forall (fun rule =>
            CanonicalMIMEHeaderKey (Header_ rule) <> CanonicalMIMEHeaderKey k)
         headerRules ->
  Values h' k = Values h k.
Proof.
  intros H HF. revert h H.
  induction HF as [|rule rest Hne _ IH]; intros h H; simpl in H.
  - by injection H as <-.
  - destruct (applyRule R h rule) as [h1|] eqn:E; [|discriminate].
    rewrite (IH _ H). by eapply applyRule_frame.
Qed.

End Frame.

(** The two Set-Cookie occurrences survive the rule on X-Frame-Options,
    also when asked for as set-cookie. *)
Lemma rules_touch_named_headers_only_witness :
  exists h',
    applyHeaderRules Instances.LiteralRegexp [Examples.rule_frame_deny]
      Examples.two_cookies = Some h' /\
    Values h' "set-cookie" = ["a=1"; "a=2"].
Proof.
  eexists. split; [reflexivity|].
  etrans.
  - apply (rules_touch_named_headers_only Instances.LiteralRegexp
             [Examples.rule_frame_deny] Examples.two_cookies _ "set-cookie" eq_refl).
    constructor; [vm_compute; discriminate|constructor].
  - reflexivity.
Defined.

(** Applying a rule a second time: set-header and del-header change
    nothing more, add-header adds its value once more. *)
Theorem set_and_del_are_idempotent_add_is_not (R : RegexpLib) (h : Header) rule :
  (Action rule = "set-header" \/ Action rule = "del-header" ->
   applyHeaderRules R [rule; rule] h = applyHeaderRules R [rule] h) /\
  (Action rule = "add-header" ->
   exists h2,
     applyHeaderRules R [rule; rule] h = Some h2 /\
     Values h2 (Header_ rule)
     = (Values h (Header_ rule) ++ [Value rule; Value rule])%list).
Proof.
  split.
  - intros [Ha|Ha]; simpl; unfold applyRule; rewrite Ha; simpl.
    + unfold Set_. by rewrite insert_insert_eq.
    + unfold Del. by rewrite delete_delete_eq.
  - intros Ha. simpl. unfold applyRule. rewrite Ha. simpl.
    eexists. split; [reflexivity|].
    rewrite !HeaderFacts.Values_Add_eq. by rewrite <- app_assoc.
Qed.

(** An add-header rule for Set-Cookie applied twice to a response without
    cookies. *)
Lemma set_and_del_are_idempotent_add_is_not_witness :
  exists h2,
    applyHeaderRules Instances.LiteralRegexp
      [ {| Action := "add-header"; Header_ := "Set-Cookie"; Value := "a=1";
           Regex := EmptyString; Replacement := EmptyString |};
        {| Action := "add-header"; Header_ := "Set-Cookie"; Value := "a=1";
           Regex := EmptyString; Replacement := EmptyString |} ] ∅ = Some h2 /\
    Values h2 "Set-Cookie" = ["a=1"; "a=1"].
Proof.
  exact (proj2 (set_and_del_are_idempotent_add_is_not Instances.LiteralRegexp ∅
                  {| Action := "add-header"; Header_ := "Set-Cookie"; Value := "a=1";
                     Regex := EmptyString; Replacement := EmptyString |}) eq_refl).
Defined.

Lemma ModifyResponse_StatusCode (R : RegexpLib) (G : GzipLib)
    (headerRules : list HeaderRule) r resp resp' :
  ModifyResponse R G headerRules r resp = Some resp' ->
  StatusCode resp' = StatusCode resp.
Proof.
  unfold ModifyResponse. intros H.
  destruct (applyHeaderRules R headerRules (RespHeader resp)); [|discriminate].
  by destruct (acceptsGzip r); injection H as <-.
Qed.

(** What ModifyResponse leaves of a response, under any rule list that
    does not make it panic.  The status is the backend's.  For a request
    that advertises gzip the header says Content-Encoding: gzip exactly
    once and has no Content-Length, whatever the rules and the backend
    said of the two, and the body is the gzip encoding of the backend's;
    for any other request the header is the rules' result and the body is
    the backend's. *)
Theorem ModifyResponse_result (R : RegexpLib) (G : GzipLib)
    (headerRules : list HeaderRule) r resp resp' :
  ModifyResponse R G headerRules r resp = Some resp' ->
  StatusCode resp' = StatusCode resp /\
  if acceptsGzip r
  then Values (RespHeader resp') "Content-Encoding" = ["gzip"] /\
       Values (RespHeader resp') "Content-Length" = [] /\
       RespBody resp' = gzip G (RespBody resp)
  else applyHeaderRules R headerRules (RespHeader resp) = Some (RespHeader resp') /\
       RespBody resp' = RespBody resp.
Proof.
  unfold ModifyResponse. intros H.
  destruct (applyHeaderRules R headerRules (RespHeader resp)) as [h|]; [|discriminate].
  destruct (acceptsGzip r); injection H as <-; simpl.
  - split; [reflexivity|]. split; [|split; [|reflexivity]].
    + rewrite HeaderFacts.Values_Del_ne by (vm_compute; discriminate).
      apply HeaderFacts.Values_Set_eq.
    + apply HeaderFacts.Values_Del_eq.
  - by repeat split.
Qed.

(** A rule that sets Content-Encoding: identity does not keep the response
    to a gzip request from being announced as gzip. *)
Lemma ModifyResponse_result_witness :
  exists resp',
    ModifyResponse Instances.LiteralRegexp Instances.FramingGzip
      [ {| Action := "set-header"; Header_ := "Content-Encoding";
           Value := "identity"; Regex := EmptyString; Replacement := EmptyString |} ]
      (Examples.req_login Examples.gzip_header)
      {| StatusCode := 200; RespHeader := Set_ ∅ "Content-Length" "5";
         RespBody := Examples.hello |} = Some resp' /\
    Values (RespHeader resp') "Content-Encoding" = ["gzip"] /\
    Values (RespHeader resp') "Content-Length" = [].
Proof.
  destruct (ModifyResponse _ _ _ _ _) as [resp'|] eqn:E;
    [|vm_compute in E; discriminate].
  exists resp'. split; [reflexivity|].
  pose proof (ModifyResponse_result _ _ _ _ _ _ E) as H.
  assert (A : acceptsGzip (Examples.req_login Examples.gzip_header) = true)
    by (vm_compute; reflexivity).
  rewrite A in H. destruct H as (_ & H1 & H2 & _).
  split; [exact H1|exact H2].
Defined.

(** The status label of the metrics against the status the client gets.
    For every answer the handler writes itself the label is the status
    code written.  A forwarded request is always labelled 200: also when
    the backend cannot be reached and the client receives 502, and
    whatever status the backend returns. *)
Theorem metrics_label (R : RegexpLib) (G : GzipLib)
    (headerRules : list HeaderRule) enableDetection
    (requestCounts : gmap string Z) r w :
  let x := handle enableDetection requestCounts r w in
  match reply_of x with
  | Error _ code | Redirect _ code | Page _ code _ => status_of x = pretty code
  | Proxied body =>
      status_of x = "200" /\
      (backend w body = None ->
       exists wr,
         gzipMiddleware G (ReverseProxy_ServeHTTP R G headerRules w r body) r ∅
           = Some wr /\ w_status wr = 502) /\
      (forall resp wr,
         backend w body = Some resp ->
         gzipMiddleware G (ReverseProxy_ServeHTTP R G headerRules w r body) r ∅
           = Some wr ->
         w_status wr = StatusCode resp)
  end.
Proof.
  assert (forall body,
            (backend w body = None ->
             exists wr,
               gzipMiddleware G (ReverseProxy_ServeHTTP R G headerRules w r body) r ∅
                 = Some wr /\ w_status wr = 502) /\
            (forall resp wr,
               backend w body = Some resp ->
               gzipMiddleware G (ReverseProxy_ServeHTTP R G headerRules w r body) r ∅
                 = Some wr ->
               w_status wr = StatusCode resp)) as Hwire.
  { intros body. unfold gzipMiddleware, ReverseProxy_ServeHTTP. split.
    - intros ->. destruct (acceptsGzip r); simpl; by eexists.
    - intros resp wr -> H.
      destruct (ModifyResponse R G headerRules r resp) as [resp'|] eqn:E.
      + apply ModifyResponse_StatusCode in E.
        destruct (acceptsGzip r); simpl in H; injection H as <-; exact E.
      + destruct (acceptsGzip r); discriminate. }
  intros x. subst x. unfold handle.
  WorkerFacts.handle_cases; unfold reply_of, status_of; simpl;
    first [reflexivity | split; [reflexivity|apply Hwire]].
Qed.

(** A forwarded request whose backend is down: labelled 200, answered
    502. *)
Lemma metrics_label_witness :
  status_of (handle false ∅ Examples.req_8081
               {| store_active_proxy := Examples.active_8081;
                  read_body := Some [];
                  detector := fun _ _ => None;
                  file_403 := None;
                  backend := fun _ => None |}) = "200" /\
  exists wr,
    gzipMiddleware Instances.FramingGzip
      (ReverseProxy_ServeHTTP Instances.LiteralRegexp Instances.FramingGzip []
         {| store_active_proxy := Examples.active_8081;
            read_body := Some [];
            detector := fun _ _ => None;
            file_403 := None;
            backend := fun _ => None |} Examples.req_8081 [])
      Examples.req_8081 ∅ = Some wr /\
    w_status wr = 502.
Proof.
  pose proof (metrics_label Instances.LiteralRegexp Instances.FramingGzip []
                false ∅ Examples.req_8081
                {| store_active_proxy := Examples.active_8081;
                   read_body := Some [];
                   detector := fun _ _ => None;
                   file_403 := None;
                   backend := fun _ => None |}) as (H1 & H2 & _).
  split; [exact H1|exact (H2 eq_refl)].
Defined.

End ResponseFacts.

Module EntryRunFacts.
Import Http Registry Entry EntryRun.

Section Ratings.
Variable U : UrlLib.
Variable cfg : Config.
Implicit Types (ratings : gmap string Z) (pm : ProxyManager U) (r : Request)
  (w : World) (ip : string).

Lemma rated_true r w :
  rated cfg r w = true ->
  aclConfig_set cfg && HandleRequestWithACL w = false /\
  Strings.HasPrefix (URL_Path r) "/api/" = false.
Proof.
  unfold rated. intros H. apply andb_prop in H as [H1 H2].
  by apply negb_true_iff in H1, H2.
Qed.

Lemma handle_rating_other pm ratings r w ip :
  RemoteAddr r <> ip ->
  GetRating (handle U cfg pm ratings r w).1 ip = GetRating ratings ip.
Proof.
  intros Hne. unfold handle.
  repeat match goal with
         | |- context [if ?b then _ else _] => destruct b
         | |- context [match ?o with Some _ => _ | None => _ end] => destruct o
         end; simpl; rewrite ?EntryFacts.GetRating_UpdateRating_ne by done; reflexivity.
Qed.

Lemma handle_rating_le pm ratings r w ip :
  GetRating ratings ip <= GetRating (handle U cfg pm ratings r w).1 ip.
Proof.
  destruct (decide (RemoteAddr r = ip)) as [<-|Hne];
    [|rewrite handle_rating_other by done; lia].
  unfold handle.
  repeat match goal with
         | |- context [if ?b then _ else _] => destruct b
         | |- context [match ?o with Some _ => _ | None => _ end] => destruct o
         end; simpl; rewrite ?EntryFacts.GetRating_UpdateRating; lia.
Qed.

Lemma serve_rating_le rs ratings ip :
  GetRating ratings ip <= GetRating (serve U cfg ratings rs).1 ip.
Proof.
  revert ratings. induction rs as [|[[pm r] w] rest IH]; intros ratings; simpl; [lia|].
  etrans; [apply (handle_rating_le pm ratings r w ip)|apply IH].
Qed.

(** A benign rated request at a rating between 0 and the ban level. *)
Lemma handle_benign pm ratings r w :
  enableDetection cfg = true ->
  rated cfg r w = true ->
  DetectAttack w = false ->
  let rating := GetRating ratings (RemoteAddr r) in
  if (maxSuspicion cfg <? rating)%Z
  then handle U cfg pm ratings r w = (ratings, Error "Forbidden" 403)
  else (handle U cfg pm ratings r w).2 <> Error "Forbidden" 403 /\
       GetRating (handle U cfg pm ratings r w).1 (RemoteAddr r) = rating + 1.
Proof.
  intros Hd Hr Hb rating. subst rating.
  destruct (rated_true r w Hr) as [Hacl Hapi].
  unfold handle. rewrite Hacl, Hapi, Hd, Hb. simpl.
  destruct (maxSuspicion cfg <? GetRating ratings (RemoteAddr r))%Z; [reflexivity|].
  destruct (GetProxy U pm); simpl;
    (split; [discriminate|apply EntryFacts.GetRating_UpdateRating]).
Qed.

Lemma serve_benign_rating rs ratings ip :
  enableDetection cfg = true ->
  0 <= GetRating ratings ip <= maxSuspicion cfg + 1 ->
  Forall (fun x => RemoteAddr x.1.2 = ip ->
                   rated cfg x.1.2 x.2 = true /\ DetectAttack x.2 = false) rs ->
  GetRating (serve U cfg ratings rs).1 ip
  = Z.min (GetRating ratings ip + Z.of_nat (seen U ip rs)) (maxSuspicion cfg + 1).
Proof.
  intros Hd Hr0 HF. revert ratings Hr0.
  induction HF as [|[[pm r] w] rest Hx _ IH]; intros ratings Hr0.
  - simpl. lia.
  - cbn [serve seen fst snd]. simpl in Hx.
    destruct (String.eqb_spec (RemoteAddr r) ip) as [Heq|Hne].
    + destruct (Hx Heq) as [Hrated Hbenign].
      pose proof (handle_benign pm ratings r w Hd Hrated Hbenign) as H.
      simpl in H. rewrite Heq in H.
      destruct (maxSuspicion cfg <? GetRating ratings ip)%Z eqn:E.
      * apply Z.ltb_lt in E. rewrite H. cbn [fst]. rewrite IH by lia. lia.
      * apply Z.ltb_ge in E. destruct H as [_ H]. rewrite IH; rewrite H; lia.
    + rewrite IH; rewrite handle_rating_other by done; [lia|lia].
Qed.

End Ratings.

(** A refusal for suspicion is final.  No request lowers a rating, so once
    the rating of an address exceeds maxSuspicion, every later request of
    that address that reaches the rating step is refused with 403,
    whatever was served in between. *)
Theorem ban_is_permanent (U : UrlLib) cfg (ratings : gmap string Z) rs
    (pm : ProxyManager U) r w :
  enableDetection cfg = true ->
  rated cfg r w = true ->
  maxSuspicion cfg < GetRating ratings (RemoteAddr r) ->
  (forall ip, GetRating ratings ip <= GetRating (serve U cfg ratings rs).1 ip) /\
  (handle U cfg pm (serve U cfg ratings rs).1 r w).2 = Error "Forbidden" 403.
Proof.
  intros Hd Hr Hban.
  split; [intros ip; apply serve_rating_le|].
  pose proof (serve_rating_le U cfg rs ratings (RemoteAddr r)) as Hle.
  destruct (rated_true cfg r w Hr) as [Hacl Hapi].
  unfold handle. rewrite Hacl, Hapi, Hd. simpl.
  set (ratings' := (serve U cfg ratings rs).1) in *.
  assert (maxSuspicion cfg
          < GetRating (if DetectAttack w
                       then UpdateRating ratings' (RemoteAddr r) 5 else ratings')
              (RemoteAddr r)) as H.
  { destruct (DetectAttack w); [rewrite EntryFacts.GetRating_UpdateRating|]; lia. }
  apply Z.ltb_lt in H. by rewrite H.
Qed.

(** An address rated 21 stays refused after two more requests. *)
Lemma ban_is_permanent_witness :
  (handle Instances.SimpleUrl Examples.entry_config Examples.registry_8081
     (serve Instances.SimpleUrl Examples.entry_config
        {[ "10.0.0.5:40000" := 21 ]}
        [(Examples.registry_8081, Examples.req_8081, Examples.benign);
         (Examples.registry_8081, Examples.req_8082, Examples.attack)]).1
     Examples.req_8081 Examples.benign).2
  = Error "Forbidden" 403.
Proof.
  exact (proj2 (ban_is_permanent Instances.SimpleUrl Examples.entry_config
                  {[ "10.0.0.5:40000" := 21 ]}
                  [(Examples.registry_8081, Examples.req_8081, Examples.benign);
                   (Examples.registry_8081, Examples.req_8082, Examples.attack)]
                  Examples.registry_8081 Examples.req_8081 Examples.benign
                  eq_refl eq_refl eq_refl)).
Defined.

(** With detection enabled, benign traffic alone gets an address refused.
    Starting from an empty store, after requests among which those of one
    address were all benign and reached the rating step, the rating of the
    address is the number of its requests, capped at maxSuspicion + 1; its
    next such request is refused with 403 exactly when it has made more
    than maxSuspicion requests before (with the threshold 20 of main: the
    first 21 requests pass, every later one is refused). *)
Theorem benign_clients_are_refused (U : UrlLib) cfg pre
    (pm : ProxyManager U) r w :
  enableDetection cfg = true ->
  0 <= maxSuspicion cfg ->
  Forall (fun x => RemoteAddr x.1.2 = RemoteAddr r ->
                   rated cfg x.1.2 x.2 = true /\ DetectAttack x.2 = false) pre ->
  rated cfg r w = true ->
  DetectAttack w = false ->
  let ratings := (serve U cfg ∅ pre).1 in
  GetRating ratings (RemoteAddr r)
  = Z.min (Z.of_nat (seen U (RemoteAddr r) pre)) (maxSuspicion cfg + 1) /\
  ((handle U cfg pm ratings r w).2 = Error "Forbidden" 403
   <-> maxSuspicion cfg < Z.of_nat (seen U (RemoteAddr r) pre)).
Proof.
  intros Hd Hmax HF Hr Hb ratings. subst ratings.
  pose proof (serve_benign_rating U cfg pre ∅ (RemoteAddr r) Hd) as Hrat.
  assert (GetRating ∅ (RemoteAddr r) = 0) as H0 by reflexivity.
  rewrite H0 in Hrat. specialize (Hrat ltac:(lia) HF). simpl in Hrat.
  split; [exact Hrat|].
  pose proof (handle_benign U cfg pm (serve U cfg ∅ pre).1 r w Hd Hr Hb) as H.
  simpl in H. rewrite Hrat in H.
  destruct (maxSuspicion cfg <? _)%Z eqn:E.
  - apply Z.ltb_lt in E. rewrite H. split; [lia|reflexivity].
  - apply Z.ltb_ge in E. destruct H as [H _]. split; [done|lia].
Qed.

(** The 22nd benign request of an address at the threshold 20. *)
Lemma benign_clients_are_refused_witness :
  (handle Instances.SimpleUrl Examples.entry_config Examples.registry_8081
     (serve Instances.SimpleUrl Examples.entry_config ∅
        (repeat (Examples.registry_8081, Examples.req_8081, Examples.benign) 21)).1
     Examples.req_8081 Examples.benign).2
  = Error "Forbidden" 403.
Proof.
  apply (proj2 (benign_clients_are_refused Instances.SimpleUrl Examples.entry_config
                  (repeat (Examples.registry_8081, Examples.req_8081, Examples.benign) 21)
                  Examples.registry_8081 Examples.req_8081 Examples.benign
                  eq_refl ltac:(done)
                  ltac:(apply Forall_forall; intros x Hx _;
                        apply list_elem_of_In, repeat_spec in Hx; by subst x)
                  eq_refl eq_refl)).
  vm_compute. reflexivity.
Defined.

Lemma before_colon_port h port :
  Strings.before_colon h = h -> Strings.before_colon (h +:+ ":" +:+ port) = h.
Proof.
  induction h as [|c h IH]; simpl; [reflexivity|].
  destruct (Ascii.eqb c ":"%char); [discriminate|].
  intros H. injection H as H. by rewrite IH.
Qed.

(** How ProxyManager.ServeHTTP chooses between redirecting and proxying,
    when the cursor is not nil and the store's active_proxy parses.  A
    request whose URL scheme differs from the cursor's (as the empty
    scheme of an origin-form request does) is redirected with 307 to the
    cursor's URL followed by the request URI.  With equal schemes the ports
    play no part: a request for the cursor's host name on any port is
    proxied, and to the URL read from the store, not to the cursor. *)
Theorem ServeHTTP_choice (U : UrlLib) (pm : ProxyManager U) r
    get_active_proxy activeProxyURL activeProxy :
  GetProxy U pm = Some activeProxyURL ->
  GetActiveProxy U get_active_proxy = Some activeProxy ->
  (URL_Scheme r <> url_Scheme U activeProxyURL ->
   ServeHTTP U pm r get_active_proxy
   = Some (SRedirect U (url_String U activeProxyURL +:+ RequestURI r) 307)) /\
  (forall h port1 port2,
     URL_Scheme r = url_Scheme U activeProxyURL ->
     Strings.before_colon h = h ->
     URL_Host r = h +:+ ":" +:+ port1 ->
     url_Host U activeProxyURL = h +:+ ":" +:+ port2 ->
     ServeHTTP U pm r get_active_proxy = Some (SProxied U activeProxy)).
Proof.
  intros Hcur Hact. unfold ServeHTTP. rewrite Hcur, Hact. split.
  - intros Hne. apply String.eqb_neq in Hne. by rewrite Hne.
  - intros h port1 port2 Hs Hh H1 H2.
    rewrite Hs, H1, H2, !before_colon_port by done.
    by rewrite !String.eqb_refl.
Qed.

(** A request for https://host:9999 while the cursor is host:8081 and the
    store says host:8082: proxied to host:8082. *)
Lemma ServeHTTP_choice_witness :
  ServeHTTP Instances.SimpleUrl Examples.registry_8081
    {| Method := "GET"; Host := "host:9999"; RequestURI := "/x";
       RemoteAddr := "10.0.0.5:40000"; URL_Scheme := "https";
       URL_Host := "host:9999"; URL_Path := "/x"; URL_RequestURI := "/x";
       ReqHeader := ∅ |}
    (Some "https://host:8082")
  = Some (SProxied Instances.SimpleUrl
            {| Instances.s_scheme := "https"; Instances.s_host := "host:8082";
               Instances.s_path := EmptyString |}).
Proof.
  exact (proj2 (ServeHTTP_choice Instances.SimpleUrl Examples.registry_8081
                  {| Method := "GET"; Host := "host:9999"; RequestURI := "/x";
                     RemoteAddr := "10.0.0.5:40000"; URL_Scheme := "https";
                     URL_Host := "host:9999"; URL_Path := "/x";
                     URL_RequestURI := "/x"; ReqHeader := ∅ |}
                  (Some "https://host:8082")
                  {| Instances.s_scheme := "https"; Instances.s_host := "host:8081";
                     Instances.s_path := EmptyString |}
                  {| Instances.s_scheme := "https"; Instances.s_host := "host:8082";
                     Instances.s_path := EmptyString |}
                  eq_refl eq_refl)
           "host" "9999" "8081" eq_refl eq_refl eq_refl eq_refl).
Defined.

End EntryRunFacts.

Module MiddlewareFacts.
Import HttpHeader Http HeaderRules Worker.

Lemma prefix_app p s : String.prefix p s = true <-> exists b, s = p +:+ b.
Proof.
  revert s. induction p as [|c p IH]; intros s; simpl.
  - split; [intros _; by exists s|]. by destruct s.
  - destruct s as [|c' s]; [split; [discriminate|intros [b Hb]; discriminate]|].
    cbn [String.prefix]. destruct (ascii_dec c c') as [->|Hne].
    + rewrite IH. split; intros [b Hb]; exists b; [by rewrite Hb|by injection Hb].
    + split; [discriminate|]. intros [b Hb]. injection Hb as Hc _. by destruct Hne.
Qed.

Lemma Contains_app s sub :
  Strings.Contains s sub = true <-> exists a b, s = a +:+ sub +:+ b.
Proof.
  induction s as [|c s IH].
  - cbn [Strings.Contains]. destruct (String.prefix sub EmptyString) eqn:E.
    + split; [intros _|intros; reflexivity]. apply prefix_app in E as [b Hb].
      exists EmptyString, b. exact Hb.
    + split; [discriminate|]. intros (a & b & H).
      destruct a; [|discriminate]. simpl in H.
      assert (String.prefix sub EmptyString = true) as E'
        by (apply prefix_app; by exists b).
      congruence.
  - cbn [Strings.Contains].
    destruct (String.prefix sub (String c s)) eqn:E.
    + split; [intros _|intros; reflexivity]. apply prefix_app in E as [b Hb].
      exists EmptyString, b. exact Hb.
    + rewrite IH. split.
      * intros (a & b & ->). by exists (String c a), b.
      * intros (a & b & H). destruct a as [|c' a].
        -- simpl in H.
           assert (String.prefix sub (String c s) = true) as E'
             by (apply prefix_app; by exists b).
           congruence.
        -- injection H as _ ->. by exists a, b.
Qed.

Lemma acceptsGzip_mention (r : Request) :
  acceptsGzip r = true
  <-> exists a b, Get (ReqHeader r) "Accept-Encoding" = a +:+ "gzip" +:+ b.
Proof. unfold acceptsGzip. apply Contains_app. Qed.

Lemma acceptsGzip_no_mention (r : Request) :
  acceptsGzip r = false
  <-> forall a b, Get (ReqHeader r) "Accept-Encoding" <> a +:+ "gzip" +:+ b.
Proof.
  split.
  - intros H a b E.
    assert (acceptsGzip r = true) by (apply acceptsGzip_mention; by exists a, b).
    congruence.
  - intros H. destruct (acceptsGzip r) eqn:E; [|reflexivity].
    apply acceptsGzip_mention in E as (a & b & E). by destruct (H a b).
Qed.

(** When a response is gzip-encoded.  gzipMiddleware encodes what the
    handler writes exactly when the first Accept-Encoding value of the
    request it is given has gzip somewhere in it, and ModifyResponse
    encodes the backend's body exactly when that of resp.Request has: a
    value that lists gzip among other codings gets gzip, and so does
    gzip;q=0, by which a client refuses it. *)
Theorem gzip_on_any_mention (R : RegexpLib) (G : GzipLib)
    (headerRules : list HeaderRule) (next : Header -> option Written)
    (r : Request) (h0 : Header) (outreq : Request) (resp : Response) :
  ((exists a b, Get (ReqHeader r) "Accept-Encoding" = a +:+ "gzip" +:+ b) ->
   gzipMiddleware G next r h0
   = match next (Set_ h0 "Content-Encoding" "gzip") with
     | Some wr => Some {| w_header := w_header wr; w_status := w_status wr;
                          w_body := gzip G (w_body wr) |}
     | None => None
     end) /\
  ((forall a b, Get (ReqHeader r) "Accept-Encoding" <> a +:+ "gzip" +:+ b) ->
   gzipMiddleware G next r h0 = next h0) /\
  ((exists a b, Get (ReqHeader outreq) "Accept-Encoding" = a +:+ "gzip" +:+ b) ->
   forall resp',
     ModifyResponse R G headerRules outreq resp = Some resp' ->
     RespBody resp' = gzip G (RespBody resp) /\
     Values (RespHeader resp') "Content-Encoding" = ["gzip"]) /\
  ((forall a b, Get (ReqHeader outreq) "Accept-Encoding" <> a +:+ "gzip" +:+ b) ->
   forall resp',
     ModifyResponse R G headerRules outreq resp = Some resp' ->
     RespBody resp' = RespBody resp /\
     applyHeaderRules R headerRules (RespHeader resp) = Some (RespHeader resp')).
Proof.
  split; [|split; [|split]].
  - intros H. apply acceptsGzip_mention in H. unfold gzipMiddleware. by rewrite H.
  - intros H. apply acceptsGzip_no_mention in H. unfold gzipMiddleware. by rewrite H.
  - intros H resp'. apply acceptsGzip_mention in H. unfold ModifyResponse. rewrite H.
    destruct (applyHeaderRules R headerRules (RespHeader resp)) as [h|];
      [|discriminate].
    intros E. injection E as <-. split; [reflexivity|]. simpl.
    rewrite HeaderFacts.Values_Del_ne by (vm_compute; discriminate).
    apply HeaderFacts.Values_Set_eq.
  - intros H resp'. apply acceptsGzip_no_mention in H. unfold ModifyResponse.
    rewrite H.
    destruct (applyHeaderRules R headerRules (RespHeader resp)) as [h|];
      [|discriminate].
    intros E. by injection E as <-.
Qed.

(** A client that refuses gzip with a zero quality value gets the 403 page
    gzip-encoded. *)
Lemma gzip_on_any_mention_witness :
  gzipMiddleware Instances.FramingGzip
    (write_page "text/html" 403 Examples.page_403)
    (Examples.req_login (Set_ ∅ "Accept-Encoding" "br, gzip;q=0")) ∅
  = Some {| w_header := Set_ (Set_ ∅ "Content-Encoding" "gzip")
                          "Content-Type" "text/html";
            w_status := 403;
            w_body := gzip Instances.FramingGzip Examples.page_403 |}.
Proof.
  refine (proj1 (gzip_on_any_mention Instances.LiteralRegexp Instances.FramingGzip
                   [] (write_page "text/html" 403 Examples.page_403)
                   (Examples.req_login (Set_ ∅ "Accept-Encoding" "br, gzip;q=0"))
                   ∅ (Examples.req_login ∅)
                   {| StatusCode := 200; RespHeader := ∅; RespBody := [] |}) _).
  exists "br, ", ";q=0". vm_compute. reflexivity.
Defined.

(** gzipMiddleware around any handler.  For a request that does not
    advertise gzip the handler's output is passed on as it is.  For one
    that does, the handler starts with Content-Encoding: gzip in the
    header, keeps its status and header, and the body sent decodes to what
    the handler wrote; a handler that panics is not answered. *)
Theorem gzipMiddleware_round_trip (G : GzipLib) (next : Header -> option Written)
    r h0 :
  GzipLaws G ->
  if acceptsGzip r
  then match next (Set_ h0 "Content-Encoding" "gzip") with
       | Some wr =>
           exists sent,
             gzipMiddleware G next r h0 = Some sent /\
             w_status sent = w_status wr /\ w_header sent = w_header wr /\
             gunzip G (w_body sent) = Some (w_body wr)
       | None => gzipMiddleware G next r h0 = None
       end
  else gzipMiddleware G next r h0 = next h0.
Proof.
  intros L. unfold gzipMiddleware.
  destruct (acceptsGzip r); simpl; [|reflexivity].
  destruct (next _) as [wr|]; [|reflexivity].
  eexists. split; [reflexivity|]. simpl.
  split; [reflexivity|]. split; [reflexivity|]. apply (gunzip_gzip G L).
Qed.

(** The 403 page behind the middleware, for a request advertising gzip. *)
Lemma gzipMiddleware_round_trip_witness :
  exists sent,
    gzipMiddleware Instances.FramingGzip
      (write_page "text/html" 403 Examples.page_403)
      (Examples.req_login Examples.gzip_header) ∅ = Some sent /\
    w_status sent = 403 /\
    w_header sent = Set_ (Set_ ∅ "Content-Encoding" "gzip") "Content-Type" "text/html" /\
    gunzip Instances.FramingGzip (w_body sent) = Some Examples.page_403.
Proof.
  exact (gzipMiddleware_round_trip Instances.FramingGzip
           (write_page "text/html" 403 Examples.page_403)
           (Examples.req_login Examples.gzip_header) ∅
           WorkerFacts.FramingGzip_laws).
Defined.

(** The workers follow the rotation through the store, by the Host of the
    request.  Once a rotation has returned and the store holds the URL it
    announced, a worker answers a request that its mux hands to the handler
    on "/" and that is under the rate limit as follows: if "https://"
    followed by the request's Host is not the URL of the endpoint under the
    registry's cursor, with a 302 to that URL followed by the request URI;
    if it is, without a redirect.  The worker's own address is not
    consulted: the answer is the same whichever worker receives the
    request. *)
Theorem workers_follow_the_rotation (P : Mux.PathLib) (U : UrlLib) draw
    (pm pm' : Registry.ProxyManager U) active enableDetection
    (requestCounts : gmap string Z) r w :
  Registry.switchProxy U draw pm = Registry.Returned pm' active ->
  store_active_proxy w = Some active ->
  to_handler P r = true ->
  new_count requestCounts r <= 500 ->
  exists u,
    Registry.currentProxy pm' = Some u /\
    let x := mux P enableDetection requestCounts r w in
    if String.eqb ("https://" +:+ Host r) (url_String U u)
    then forall status url code, x.2 <> Handled status (Redirect url code)
    else x.2 = Handled "302" (Redirect (url_String U u +:+ RequestURI r) 302).
Proof.
  intros Hsw Hs Hr Hn.
  destruct (RotationFacts.switchProxy_Returned U _ _ _ _ Hsw) as (u & Hu & ->).
  exists u. split; [exact Hu|]. intros x. subst x.
  rewrite WorkerFacts.mux_handled by assumption. cbn [snd].
  destruct (String.eqb_spec ("https://" +:+ Host r) (url_String U u)) as [He|Hne].
  - intros status url code. unfold handle. fold (new_count requestCounts r).
    apply Z.ltb_ge in Hn. rewrite Hn, Hs, He, String.eqb_refl. simpl.
    WorkerFacts.handle_cases; discriminate.
  - by rewrite (WorkerFacts.handle_shed _ _ _ _ (url_String U u)).
Qed.

(** After a rotation that selects 8081, a request with the Host of the
    worker on 8082 is shed to 8081 (scenario S1). *)
Lemma workers_follow_the_rotation_witness :
  (mux Instances.SimplePath false ∅ Examples.req_8082
     (Examples.world Examples.active_8081 None)).2
  = Handled "302" (Redirect "https://host:8081/x" 302).
Proof.
  assert (Hsw : Registry.switchProxy Instances.SimpleUrl (fun i => i)
                  Examples.registry_8081
                = Registry.Returned Examples.registry_8081 "https://host:8081")
    by (vm_compute; reflexivity).
  assert (Hs : store_active_proxy (Examples.world Examples.active_8081 None)
               = Some "https://host:8081") by (vm_compute; reflexivity).
  assert (Hr : to_handler Instances.SimplePath Examples.req_8082 = true)
    by (vm_compute; reflexivity).
  assert (Hn : new_count ∅ Examples.req_8082 <= 500)
    by (vm_compute; discriminate).
  destruct (workers_follow_the_rotation Instances.SimplePath Instances.SimpleUrl
              (fun i => i) Examples.registry_8081 Examples.registry_8081
              "https://host:8081" false ∅ Examples.req_8082
              (Examples.world Examples.active_8081 None)
              Hsw Hs Hr Hn) as (u & Hu & H).
  vm_compute in Hu. injection Hu as <-. exact H.
Defined.

End MiddlewareFacts.
